(** * biosignalsnotebooks: the conversion module

    A shallow embedding of [biosignalsnotebooks/conversion.py]:
    [raw_to_phy], which converts raw ADC codes to physical units through the
    transfer function of a sensor and a device, and [generate_time], which
    builds the time axis of a signal; and of [_inhal_exhal_segments] of
    [__notebook_support__.py], which draws the respiration segments.

    The Python code computes on numpy arrays of binary64 numbers.  The
    embedding is written once over an interface of the arithmetic the module
    uses ([Float64]) and is read at two instances:
    - [Exact]: the real numbers, the arithmetic the transfer functions are
      stated in; the algebraic properties are proved there;
    - [Binary64]: Rocq's primitive IEEE 754 binary64 numbers, on which the
      definitions run.  [numpy.log] and the [**] of numpy have no primitive
      counterpart and are arguments of that instance.

    Modelling choices, common to both instances:
    - the raw samples are Python integers, and a numpy integer array is a
      list of [Z]; reading an integer as a float is total ([of_Z]): the
      width of numpy's integers, and Python's refusal to convert an integer
      beyond the range of a float, are left out;
    - numpy does not raise on a division by zero or on the logarithm of a
      non-positive number, it warns and goes on with inf or nan; the
      arithmetic is therefore total, and the only exceptions are those the
      Python code raises itself;
    - the reals have no inf and no nan: in [Exact] a quotient by zero and
      the logarithm of a non-positive number are the numbers Rocq gives
      them, not what numpy returns.  [Exact] stands for the program where
      the divisors are not zero and the arguments of the logarithm are
      positive, and a theorem on the values of the samples is stated
      there;
    - the sensor, the device and the unit are strings, compared as the code
      compares them; [resolution] is any Python object. *)

From Stdlib Require Import ZArith List String Bool Lia.
From Stdlib Require Import Reals Lra.
From Stdlib Require Import Floats.
From Stdlib Require Import Permutation.
Import ListNotations.

Set Warnings "-inexact-float".

(** ** The arithmetic of the module *)

Class Float64 (F : Type) : Type := {
  of_Z : Z -> F;          (* a Python or numpy integer read as a float *)
  fadd : F -> F -> F;
  fsub : F -> F -> F;
  fmul : F -> F -> F;
  fdiv : F -> F -> F;
  feqb : F -> F -> bool;  (* [==] *)
  flog : F -> F;          (* [numpy.log] *)
  fpow : F -> Z -> F      (* [**] with an integer exponent *)
}.

(** ** Python values, exceptions and results *)

Inductive exn : Type :=
| RuntimeError (msg : string)
| ZeroDivisionError
| TypeError.

(** What a call does: it returns a value, raises, or (in the model only) the
    recursion budget is used up. *)
Inductive outcome (A : Type) : Type :=
| Return (a : A)
| Raise (e : exn)
| OutOfFuel.

Arguments Return {A} a.
Arguments Raise {A} e.
Arguments OutOfFuel {A}.

Definition bind {A B : Type} (m : outcome A) (k : A -> outcome B) : outcome B :=
  match m with
  | Return a => k a
  | Raise e => Raise e
  | OutOfFuel => OutOfFuel
  end.

Notation "x <- m ;; k" := (bind m (fun x => k))
  (at level 61, m at next level, right associativity).

(** The messages of the module's [raise] statements. *)
Definition msg_resolution : string :=
  "The specified resolution needs to be an integer.".
Definition msg_device : string :=
  "The output specified unit does not have a defined transfer function for the used device.".
Definition msg_unit : string :=
  "The selected output unit is invalid for the sensor under analysis.".
Definition msg_sensor : string :=
  "The specified sensor is not valid or for now is not available for unit conversion.".

(** The error names of the specification, as the exceptions the code raises. *)
Definition InvalidResolution : exn := RuntimeError msg_resolution.
Definition UnsupportedDeviceForUnit : exn := RuntimeError msg_device.
Definition UnsupportedUnit : exn := RuntimeError msg_unit.
Definition UnsupportedSensor : exn := RuntimeError msg_sensor.

(** [x in l] on a list of strings. *)
Definition py_in (x : string) (l : list string) : bool :=
  existsb (String.eqb x) l.

(** [sub in s] on strings. *)
Definition str_in (sub s : string) : bool :=
  match String.index 0 sub s with
  | Some _ => true
  | None => false
  end.

(** The device lists of the module. *)
Definition plux_devices : list string :=
  ["bioplux"; "bioplux_exp"; "biosignalsplux"; "rachimeter"; "channeller";
   "swifter"; "ddme_openbanplux"]%string.
Definition bitalino_devices : list string :=
  ["bitalino"; "bitalino_rev"; "bitalino_riot"]%string.
Definition spo2_devices : list string :=
  ["channeller"; "biosignalsplux"; "swifter"]%string.
Definition spo2_sensors : list string :=
  ["SpO2.ARM"; "SpO2.HEAD"; "SpO2.FING"]%string.

Section Conversion.

Context {F : Type} {arith : Float64 F}.

(** The objects [resolution] can be bound to. *)
Inductive pyobj : Type :=
| PyInt (n : Z)
| PyBool (b : bool)
| PyFloat (x : F)
| PyStr (s : string)
| PyNone.

(** [isinstance(o, int)], with the integer when it holds ([bool] is a
    subclass of [int]). *)
Definition as_int (o : pyobj) : option Z :=
  match o with
  | PyInt n => Some n
  | PyBool b => Some (if b then 1 else 0)%Z
  | _ => None
  end.

(** A decimal literal [m / 10^k]: the quotient of two floats. *)
Definition dec (m : Z) (k : Z) : F := fdiv (of_Z m) (of_Z (10 ^ k)).

(** [2 ** r] read as a float: an integer for [0 <= r], else a float power. *)
Definition pow2 (r : Z) : F :=
  if (0 <=? r)%Z then of_Z (2 ^ r) else fpow (of_Z 2) r.

(** [2 ** r - x] on an integer array: integer subtraction for [0 <= r]. *)
Definition pow2_minus (r x : Z) : F :=
  if (0 <=? r)%Z then of_Z (2 ^ r - x) else fsub (fpow (of_Z 2) r) (of_Z x).

(** [(raw_signal * vcc / (2 ** resolution) - vcc * offset) / gain], one sample. *)
Definition linear_tf (vcc offset gain : F) (r : Z) (x : Z) : F :=
  fdiv (fsub (fdiv (fmul (of_Z x) vcc) (pow2 r)) (fmul vcc offset)) gain.

(** [(1e4 * raw_signal) / (2**resolution - raw_signal)], one sample. *)
Definition ohm_tf (r : Z) (x : Z) : F :=
  fdiv (fmul (of_Z 10000) (of_Z x)) (pow2_minus r x).

Definition a_0 : F := dec 112764514 11.
Definition a_1 : F := dec 234282709 12.
Definition a_2 : F := dec 877303013 16.

(** [1 / (a_0 + a_1 * numpy.log(R1) + a_2 * (numpy.log(R2) ** 3))], one sample. *)
Definition kelvin_tf (R1 R2 : F) : F :=
  fdiv (of_Z 1)
       (fadd (fadd a_0 (fmul a_1 (flog R1))) (fmul a_2 (fpow (flog R2) 3))).

(** [((raw_signal / (2 ** resolution)) * vcc - 0.5) * 100], one sample. *)
Definition bitalino_celsius_tf (vcc : F) (r : Z) (x : Z) : F :=
  fmul (fsub (fmul (fdiv (of_Z x) (pow2 r)) vcc) (dec 5 1)) (of_Z 100).

(** [scale_factor * (raw_signal / (2 ** resolution))], one sample. *)
Definition spo2_tf (scale_factor : F) (r : Z) (x : Z) : F :=
  fmul scale_factor (fdiv (of_Z x) (pow2 r)).

(** The gains of the mV transfer functions. *)
Definition mV_gains : list F :=
  [of_Z 1; dec 1008 3; dec 1009 3; dec 1019 3; dec 11 1].

(** The array a recursive call hands to numpy: [None] is no array. *)
Definition as_array (m : outcome (option (list F))) : outcome (list F) :=
  o <- m ;;
  match o with
  | Some a => Return a
  | None => Raise TypeError
  end.

(** [raw_to_phy]; [fuel] bounds the depth of the self calls. *)
Fixpoint raw_to_phy_fuel (fuel : nat) (sensor device : string)
         (raw_signal : list Z) (resolution : pyobj) (opt : string)
  : outcome (option (list F)) :=
  match fuel with
  | O => OutOfFuel
  | S fuel' =>
    let self := raw_to_phy_fuel fuel' sensor device raw_signal resolution in
    match as_int resolution with
    | None => Raise (RuntimeError msg_resolution)
    | Some r =>
      if (sensor =? "TEMP")%string then
        let vcc := of_Z 3 in
        let available_dev_1 := plux_devices in
        let available_dev_2 := bitalino_devices in
        if (opt =? "Ohm")%string then
          if py_in device available_dev_1 then
            Return (Some (map (ohm_tf r) raw_signal))
          else Raise (RuntimeError msg_device)
        else if (opt =? "K")%string then
          R1 <- as_array (self "Ohm"%string) ;;
          R2 <- as_array (self "Ohm"%string) ;;
          Return (Some (map (fun p => kelvin_tf (fst p) (snd p)) (combine R1 R2)))
        else if (opt =? "C")%string then
          if py_in device available_dev_1 then
            K <- as_array (self "K"%string) ;;
            Return (Some (map (fun k => fsub k (dec 27315 2)) K))
          else if py_in device available_dev_2 then
            Return (Some (map (bitalino_celsius_tf vcc r) raw_signal))
          else Raise (RuntimeError msg_device)
        else Raise (RuntimeError msg_unit)
      else if (sensor =? "EMG")%string then
        let available_dev_1 := plux_devices in
        let available_dev_2 := ["bitalino"%string] in
        let available_dev_3 := ["bitalino_rev"; "bitalino_riot"]%string in
        if (opt =? "mV")%string then
          let vcc := of_Z 3 in
          if py_in device available_dev_1 then
            Return (Some (map (linear_tf vcc (dec 5 1) (of_Z 1) r) raw_signal))
          else if py_in device available_dev_2 then
            Return (Some (map (linear_tf vcc (dec 5 1) (dec 1008 3) r) raw_signal))
          else if py_in device available_dev_3 then
            Return (Some (map (linear_tf vcc (dec 5 1) (dec 1009 3) r) raw_signal))
          else Raise (RuntimeError msg_device)
        else if (opt =? "V")%string then
          mV <- as_array (self "mV"%string) ;;
          Return (Some (map (fun v => fdiv v (of_Z 1000)) mV))
        else Return None
      else if (sensor =? "ECG")%string then
        let available_dev_1 := plux_devices in
        let available_dev_2 := bitalino_devices in
        if (opt =? "mV")%string then
          let vcc := of_Z 3 in
          if py_in device available_dev_1 then
            Return (Some (map (linear_tf vcc (dec 5 1) (dec 1019 3) r) raw_signal))
          else if py_in device available_dev_2 then
            Return (Some (map (linear_tf vcc (dec 5 1) (dec 11 1) r) raw_signal))
          else Raise (RuntimeError msg_device)
        else if (opt =? "V")%string then
          mV <- as_array (self "mV"%string) ;;
          Return (Some (map (fun v => fdiv v (of_Z 1000)) mV))
        else Return None
      else if (sensor =? "BVP")%string then
        let available_dev_1 := plux_devices in
        if (opt =? "uA")%string then
          let vcc := of_Z 3 in
          if py_in device available_dev_1 then
            Return (Some (map (linear_tf vcc (of_Z 0) (dec 190060606 9) r) raw_signal))
          else Raise (RuntimeError msg_device)
        else if (opt =? "A")%string then
          uA <- as_array (self "uA"%string) ;;
          Return (Some (map (fun v => fmul v (dec 1 6)) uA))
        else Return None
      else if py_in sensor spo2_sensors then
        let available_dev_1 := spo2_devices in
        let scale_factor :=
          if str_in "ARM" sensor || str_in "FING" sensor then Some (dec 12 1)
          else if str_in "HEAD" sensor then Some (dec 15 2)
          else None in
        if (opt =? "uA")%string then
          if py_in device available_dev_1 then
            match scale_factor with
            | Some sf => Return (Some (map (spo2_tf sf r) raw_signal))
            | None => Raise TypeError
            end
          else Raise (RuntimeError msg_device)
        else if (opt =? "A")%string then
          uA <- as_array (self "uA"%string) ;;
          Return (Some (map (fun v => fmul v (dec 1 6)) uA))
        else Return None
      else Raise (RuntimeError msg_sensor)
    end
  end.

(** The longest chain of self calls is C, K, Ohm. *)
Definition raw_to_phy : string -> string -> list Z -> pyobj -> string
                        -> outcome (option (list F)) :=
  raw_to_phy_fuel 3.

(** [numpy.linspace(start, stop, num)] with its default [endpoint=True].
    [y] is [arange(0, num)]; the step is [delta / div] with
    [div = num - 1]; the last sample is set to [stop] when [num > 1]. *)
Definition set_last (y : list F) (stop : F) : list F :=
  removelast y ++ [stop].

Definition linspace (start stop : F) (num : nat) : list F :=
  let div := (Z.of_nat num - 1)%Z in
  let delta := fsub stop start in
  let y := map (fun i => of_Z (Z.of_nat i)) (seq 0 num) in
  let y :=
    if (0 <? div)%Z then
      let step := fdiv delta (of_Z div) in
      if feqb step (of_Z 0) then
        map (fun v => fmul (fdiv v (of_Z div)) delta) y
      else map (fun v => fmul v step) y
    else map (fun v => fmul v delta) y in
  let y := map (fun v => fadd v start) y in
  if (1 <? num)%nat then set_last y stop else y.

(** [generate_time]; [sample_rate] is an integer, as documented. *)
Definition generate_time {A : Type} (signal : list A) (sample_rate : Z)
  : outcome (list F) :=
  let nbr_of_samples := List.length signal in
  if (sample_rate =? 0)%Z then Raise ZeroDivisionError
  else
    let end_of_time := fdiv (of_Z (Z.of_nat nbr_of_samples)) (of_Z sample_rate) in
    let time_axis := linspace (of_Z 0) end_of_time nbr_of_samples in
    Return time_axis.

End Conversion.

Arguments pyobj F : clear implicits.

(** ** The two instances *)

Definition Req_bool (x y : R) : bool :=
  if Req_dec_T x y then true else false.

(** The reals.  Away from a zero divisor and from the logarithm of a
    non-positive number this is the arithmetic the transfer functions are
    written in; at those points binary64 has inf, -inf or nan and the reals
    have nothing, so there [Rdiv] and [ln] say nothing of the program. *)
#[export] Instance Exact : Float64 R := {
  of_Z := IZR;
  fadd := Rplus;
  fsub := Rminus;
  fmul := Rmult;
  fdiv := Rdiv;
  feqb := Req_bool;
  flog := ln;
  fpow := powerRZ
}.

(** An integer rounded to the nearest binary64 number. *)
Definition f64_of_Z (z : Z) : float :=
  SF2Prim (SpecFloat.binary_normalize 53 1024 z 0 false).

Definition Binary64 (log64 : float -> float) (pow64 : float -> Z -> float)
  : Float64 float := {|
  of_Z := f64_of_Z;
  fadd := PrimFloat.add;
  fsub := PrimFloat.sub;
  fmul := PrimFloat.mul;
  fdiv := PrimFloat.div;
  feqb := PrimFloat.eqb;
  flog := log64;
  fpow := pow64
|}.

(** Closeness of a computed sample to a printed decimal. *)
Definition approx (tol x y : R) : Prop := (Rabs (x - y) <= tol)%R.

(** The units each sensor's branch of [raw_to_phy] tests for. *)
Definition supported_units (sensor : string) : list string :=
  if (sensor =? "TEMP")%string then ["Ohm"; "K"; "C"]%string
  else if (sensor =? "EMG")%string || (sensor =? "ECG")%string
       then ["mV"; "V"]%string
  else if (sensor =? "BVP")%string || py_in sensor spo2_sensors
       then ["uA"; "A"]%string
  else [].

(** The sensors of the module. *)
Definition supported_sensors : list string :=
  ["ECG"; "EMG"; "TEMP"; "BVP"; "SpO2.ARM"; "SpO2.FING"; "SpO2.HEAD"]%string.

(** The devices each (sensor, unit) pair of [raw_to_phy] has a transfer
    function for: the lists the branch of the pair (or the branch its self
    call reaches) tests the device against. *)
Definition supported_devices (sensor opt : string) : list string :=
  if (sensor =? "TEMP")%string then
    if (opt =? "C")%string then plux_devices ++ bitalino_devices
    else plux_devices
  else if (sensor =? "EMG")%string || (sensor =? "ECG")%string
       then plux_devices ++ bitalino_devices
  else if (sensor =? "BVP")%string then plux_devices
  else spo2_devices.

(** ** Drawing the respiration segments

    [_inhal_exhal_segments] of [__notebook_support__.py] draws, on a Bokeh
    figure, one line per inhalation and per exhalation segment of a signal.
    The figure is modelled by the calls of [fig.line] made on it, in order;
    the two colours are the results of the two calls of
    [opensignals_color_pallet], which is not part of the module. *)

(** [l[a:b]], [l[a:]] and [l[:b]]: a bound that is left out is [None]; a
    negative bound counts from the end; both are clipped to the list. *)
Definition py_slice_bound (len : nat) (a : Z) : nat :=
  Z.to_nat (if (a <? 0)%Z then Z.max (a + Z.of_nat len) 0
            else Z.min a (Z.of_nat len)).

Definition py_slice {T : Type} (l : list T) (a b : option Z) : list T :=
  let lo := match a with
            | Some a => py_slice_bound (List.length l) a
            | None => 0%nat
            end in
  let hi := match b with
            | Some b => py_slice_bound (List.length l) b
            | None => List.length l
            end in
  firstn (hi - lo) (skipn lo l).

Section Segments.

Context {X Y C : Type}.

(** A call [fig.line(x, y, line_width=.., line_color=.., legend=..)]. *)
Record line_call : Type := {
  line_x : list X;
  line_y : list Y;
  line_width : Z;
  line_color : C;
  legend : option string
}.

(** The figure after the calls that were made, and whether an index was out
    of range. *)
Inductive drawing : Type :=
| Drawn (fig : list line_call)
| IndexError (fig : list line_call).

Variables (inhal_color exhal_color : C).
Variables (time : list X) (signal : list Y).
Variables (inhal_begin inhal_end exhal_begin exhal_end : list Z).

Definition segment (a b : option Z) (color : C) (lg : option string) : line_call :=
  {| line_x := py_slice time a b;
     line_y := py_slice signal a b;
     line_width := 2;
     line_color := color;
     legend := lg |}.

(** The body of the loop, for the index [inhal_exhal]. *)
Definition segments_body (inhal_exhal : nat) (fig : list line_call) : drawing :=
  let legend :=
    if (inhal_exhal =? 0)%nat
    then (Some "Respiration Suspension"%string, Some "Normal Breath"%string)
    else (None, None) in
  match nth_error inhal_begin inhal_exhal, nth_error inhal_end inhal_exhal with
  | Some ib, Some ie =>
    let fig := fig ++ [segment (Some ib) (Some ie) inhal_color (fst legend)] in
    if negb (inhal_exhal =? List.length inhal_begin - 1)%nat then
      match nth_error exhal_begin inhal_exhal, nth_error exhal_end inhal_exhal with
      | Some eb, Some ee =>
        let fig := fig ++ [segment (Some eb) (Some ee) exhal_color (snd legend)] in
        if (inhal_exhal =? 0)%nat then
          Drawn (fig ++ [segment None (Some ib) exhal_color (snd legend)])
        else Drawn fig
      | _, _ => IndexError fig
      end
    else
      match nth_error exhal_begin inhal_exhal with
      | Some eb =>
        Drawn (fig ++ [segment (Some eb) None exhal_color (snd legend)])
      | None => IndexError fig
      end
  | _, _ => IndexError fig
  end.

(** [for inhal_exhal in range(...)], over the indices that are left. *)
Fixpoint segments_loop (range : list nat) (fig : list line_call) : drawing :=
  match range with
  | [] => Drawn fig
  | inhal_exhal :: range' =>
    match segments_body inhal_exhal fig with
    | Drawn fig' => segments_loop range' fig'
    | IndexError fig' => IndexError fig'
    end
  end.

Definition _inhal_exhal_segments (fig : list line_call) : drawing :=
  segments_loop (seq 0 (List.length inhal_begin)) fig.

(** The indices the body of the loop reads at the index [j] are in range. *)
Definition readable (j : nat) : Prop :=
  (j < List.length inhal_end)%nat /\
  (j < List.length exhal_begin)%nat /\
  (j <> List.length inhal_begin - 1 -> j < List.length exhal_end)%nat.

End Segments.

(** Begin and end indices that alternate along the signal: each segment
    begins at a non-negative index, ends no earlier than it begins, and
    the next one begins no earlier than it ends. *)
Definition alternating (begins ends : list Z) : Prop :=
  List.length ends = List.length begins /\
  forall (i : nat) (b e : Z),
    nth_error begins i = Some b -> nth_error ends i = Some e ->
    (0 <= b <= e)%Z /\
    forall b' : Z, nth_error begins (S i) = Some b' -> (e <= b')%Z.

Arguments line_call : clear implicits.
Arguments drawing : clear implicits.

(** ** Facts that hold in every arithmetic *)

(** One step of [raw_to_phy_fuel], with the comparisons of string literals
    evaluated. *)
Ltac step_raw_to_phy :=
  cbn [raw_to_phy_fuel String.eqb Ascii.eqb Bool.eqb bind as_array as_int orb].

(** Case analysis on the next test of the dispatch. *)
Ltac split_dispatch :=
  match goal with
  | |- context [String.eqb ?s ?l] =>
      is_var s; destruct (String.eqb_spec s l); [subst s|]
  | |- context [py_in ?s spo2_sensors] =>
      let e := eval cbv [py_in spo2_sensors existsb] in (py_in s spo2_sensors) in
      change (py_in s spo2_sensors) with e
  | |- context [py_in ?d ?l] => destruct (py_in d l)
  | |- context [match as_int ?r with _ => _ end] => destruct (as_int r)
  | |- context [if (?a || ?b)%bool then _ else _] => destruct (a || b)%bool
  | |- context [if str_in ?a ?b then _ else _] => destruct (str_in a b)
  end.

(** Evaluate a membership test between literals. *)
Ltac eval_py_in :=
  repeat match goal with
  | |- context [py_in ?d ?l] =>
      let b := eval vm_compute in (py_in d l) in
      change (py_in d l) with b
  | |- context [str_in ?a ?b] =>
      let v := eval vm_compute in (str_in a b) in
      change (str_in a b) with v
  end.

(** Unfold the decimal literals of the module in exact arithmetic, down to
    quotients of integers. *)
Ltac eval_dec :=
  unfold a_0, a_1, a_2, dec; cbn [of_Z fdiv fmul fsub fadd Exact];
  repeat match goal with
  | |- context [(10 ^ ?k)%Z] =>
      let v := eval vm_compute in (10 ^ k)%Z in change (10 ^ k)%Z with v
  end.

Section ConversionFacts.

Context {F : Type} {arith : Float64 F}.

Implicit Types (sensor device opt : string) (raw : list Z) (res : pyobj F).

Lemma raw_to_phy_fuel_enough (n : nat) sensor device raw res opt :
  raw_to_phy_fuel (3 + n) sensor device raw res opt
  = raw_to_phy sensor device raw res opt.
Proof.
  unfold raw_to_phy.
  change (3 + n)%nat with (S (S (S n))).
  step_raw_to_phy.
  repeat (split_dispatch; step_raw_to_phy); reflexivity.
Qed.

(** The budget of [raw_to_phy] is never used up: every call returns or
    raises. *)
Lemma raw_to_phy_total sensor device raw res opt :
  raw_to_phy sensor device raw res opt <> OutOfFuel.
Proof.
  unfold raw_to_phy.
  step_raw_to_phy.
  repeat (split_dispatch; step_raw_to_phy); discriminate.
Qed.

Lemma py_in_In (x : string) (l : list string) :
  py_in x l = true <-> In x l.
Proof.
  unfold py_in. rewrite existsb_exists. split.
  - intros [y [Hy Heq]]. apply String.eqb_eq in Heq. now subst.
  - intros Hx. exists x. split; [assumption | apply String.eqb_refl].
Qed.

Lemma map_combine_diag {A B : Type} (f : A * A -> B) (l : list A) :
  map f (combine l l) = map (fun x => f (x, x)) l.
Proof.
  induction l as [|a l IH]; simpl; [reflexivity | now rewrite IH].
Qed.

(** *** The resolution check *)

Lemma raw_to_phy_not_int sensor device raw res opt :
  as_int res = None ->
  raw_to_phy sensor device raw res opt = Raise InvalidResolution.
Proof.
  intros Hres. unfold raw_to_phy. cbn [raw_to_phy_fuel].
  now rewrite Hres.
Qed.

Lemma raw_to_phy_int_not_InvalidResolution sensor device raw res opt (r : Z) :
  as_int res = Some r ->
  raw_to_phy sensor device raw res opt <> Raise InvalidResolution.
Proof.
  intros Hres. unfold raw_to_phy. cbn [raw_to_phy_fuel]. rewrite Hres.
  step_raw_to_phy. rewrite ?Hres.
  repeat (split_dispatch; step_raw_to_phy; rewrite ?Hres); discriminate.
Qed.

(** *** TEMP *)

Lemma temp_ohm device raw res (r : Z) :
  as_int res = Some r -> In device plux_devices ->
  raw_to_phy "TEMP" device raw res "Ohm"
  = Return (Some (map (ohm_tf r) raw)).
Proof.
  intros Hres Hdev. apply py_in_In in Hdev. unfold raw_to_phy. step_raw_to_phy.
  now rewrite Hres, Hdev.
Qed.

Lemma temp_kelvin device raw res (r : Z) :
  as_int res = Some r -> In device plux_devices ->
  raw_to_phy "TEMP" device raw res "K"
  = Return (Some (map (fun R => kelvin_tf R R) (map (ohm_tf r) raw))).
Proof.
  intros Hres Hdev. apply py_in_In in Hdev. unfold raw_to_phy. step_raw_to_phy.
  rewrite Hres, Hdev.
  step_raw_to_phy. now rewrite map_combine_diag.
Qed.

Lemma temp_celsius_plux device raw res (r : Z) :
  as_int res = Some r -> In device plux_devices ->
  raw_to_phy "TEMP" device raw res "C"
  = Return (Some (map (fun k => fsub k (dec 27315 2))
                      (map (fun R => kelvin_tf R R) (map (ohm_tf r) raw)))).
Proof.
  intros Hres Hdev. apply py_in_In in Hdev. unfold raw_to_phy. step_raw_to_phy.
  rewrite Hres, Hdev.
  step_raw_to_phy. now rewrite map_combine_diag.
Qed.

Lemma temp_unit_rejected device raw res (r : Z) opt :
  as_int res = Some r -> ~ In opt ["Ohm"; "K"; "C"]%string ->
  raw_to_phy "TEMP" device raw res opt = Raise UnsupportedUnit.
Proof.
  intros Hres Hopt. unfold raw_to_phy. step_raw_to_phy. rewrite Hres.
  destruct (String.eqb_spec opt "Ohm") as [->|_]; [exfalso; apply Hopt; simpl; tauto|].
  destruct (String.eqb_spec opt "K") as [->|_]; [exfalso; apply Hopt; simpl; tauto|].
  destruct (String.eqb_spec opt "C") as [->|_]; [exfalso; apply Hopt; simpl; tauto|].
  reflexivity.
Qed.

(** *** EMG, ECG, BVP and SpO2 *)

Lemma mV_dispatch sensor device res (r : Z) :
  as_int res = Some r ->
  sensor = "EMG"%string \/ sensor = "ECG"%string ->
  In device (plux_devices ++ bitalino_devices) ->
  exists gain, In gain mV_gains /\
    forall raw, raw_to_phy sensor device raw res "mV"
                = Return (Some (map (linear_tf (of_Z 3) (dec 5 1) gain r) raw)).
Proof.
  intros Hres Hs Hd. unfold raw_to_phy, mV_gains.
  destruct Hs as [-> | ->]; step_raw_to_phy; rewrite Hres;
    simpl in Hd; intuition (subst device; eval_py_in; cbn [In]; eauto 8).
Qed.

Lemma ecg_mV_plux device raw res (r : Z) :
  as_int res = Some r -> In device plux_devices ->
  raw_to_phy "ECG" device raw res "mV"
  = Return (Some (map (linear_tf (of_Z 3) (dec 5 1) (dec 1019 3) r) raw)).
Proof.
  intros Hres Hdev. apply py_in_In in Hdev. unfold raw_to_phy. step_raw_to_phy.
  now rewrite Hres, Hdev.
Qed.

Lemma volt_of_millivolt sensor device raw res (mV : list F) :
  sensor = "EMG"%string \/ sensor = "ECG"%string ->
  raw_to_phy sensor device raw res "mV" = Return (Some mV) ->
  raw_to_phy sensor device raw res "V"
  = Return (Some (map (fun v => fdiv v (of_Z 1000)) mV)).
Proof.
  unfold raw_to_phy.
  intros [-> | ->] HmV; step_raw_to_phy; cbn [raw_to_phy_fuel] in HmV;
    destruct (as_int res); try discriminate;
    step_raw_to_phy; cbn [String.eqb Ascii.eqb Bool.eqb] in HmV;
    now rewrite HmV.
Qed.

Lemma ampere_of_microampere sensor device raw res (uA : list F) :
  sensor = "BVP"%string \/ In sensor spo2_sensors ->
  raw_to_phy sensor device raw res "uA" = Return (Some uA) ->
  raw_to_phy sensor device raw res "A"
  = Return (Some (map (fun v => fmul v (dec 1 6)) uA)).
Proof.
  unfold raw_to_phy. intros Hs. simpl in Hs.
  intuition (try subst sensor; try contradiction);
    step_raw_to_phy; cbn [raw_to_phy_fuel] in *;
    destruct (as_int res); try discriminate;
    eval_py_in; step_raw_to_phy;
    match goal with
    | HuA : _ = Return (Some uA) |- _ =>
        cbn [String.eqb Ascii.eqb Bool.eqb orb] in HuA;
        revert HuA; eval_py_in; intros HuA; cbn [orb] in HuA;
        now rewrite HuA
    end.
Qed.

(** A unit outside the set of EMG, ECG, BVP or an SpO2 sensor falls through
    both tests of the sensor's branch: [out] is still [None] when it is
    returned. *)
Lemma unit_falls_through sensor device raw res (r : Z) opt :
  as_int res = Some r ->
  In sensor supported_sensors -> sensor <> "TEMP"%string ->
  ~ In opt (supported_units sensor) ->
  raw_to_phy sensor device raw res opt = Return None.
Proof.
  intros Hres Hs Htemp Hopt. unfold raw_to_phy.
  simpl in Hs. intuition (try subst sensor; try contradiction);
    vm_compute in Hopt; step_raw_to_phy; rewrite Hres; eval_py_in;
    step_raw_to_phy;
    repeat match goal with
    | |- context [String.eqb opt ?l] =>
        destruct (String.eqb_spec opt l); [subst opt; tauto|]
    end; reflexivity.
Qed.

(** *** The time axis *)

Lemma set_last_length (y : list F) (stop : F) :
  y <> [] -> List.length (set_last y stop) = List.length y.
Proof.
  intros Hy. unfold set_last.
  destruct (exists_last Hy) as (l & a & ->).
  rewrite removelast_last, !length_app. reflexivity.
Qed.

Lemma linspace_length (start stop : F) (num : nat) :
  List.length (linspace start stop num) = num.
Proof.
  unfold linspace.
  set (y := map _ (if (0 <? Z.of_nat num - 1)%Z then _ else _)).
  assert (Hy : List.length y = num).
  { unfold y. rewrite length_map.
    destruct (0 <? Z.of_nat num - 1)%Z; [destruct (feqb _ _)|];
      now rewrite !length_map, length_seq. }
  destruct (Nat.ltb_spec 1 num) as [Hnum|Hnum]; [|exact Hy].
  rewrite set_last_length; [exact Hy|].
  intros ->. simpl in Hy. lia.
Qed.

Lemma generate_time_zero_rate {A : Type} (signal : list A) :
  generate_time signal 0 = Raise ZeroDivisionError.
Proof. reflexivity. Qed.

Lemma generate_time_nonzero_rate {A : Type} (signal : list A) (rate : Z) :
  rate <> 0%Z ->
  generate_time signal rate
  = Return (linspace (of_Z 0)
                     (fdiv (of_Z (Z.of_nat (List.length signal))) (of_Z rate))
                     (List.length signal)).
Proof.
  intros Hrate. unfold generate_time.
  now destruct (Z.eqb_spec rate 0).
Qed.

End ConversionFacts.

(** ** The transfer functions in exact arithmetic *)

Section ExactFacts.

Local Open Scope R_scope.

Lemma IZR_pow2 (r : Z) : (0 <= r)%Z -> IZR (2 ^ r) = powerRZ 2 r.
Proof.
  intros Hr. rewrite <- (Z2Nat.id r Hr) at 1.
  rewrite <- pow_IZR, pow_powerRZ. now rewrite Z2Nat.id.
Qed.

Lemma pow2_exact (r : Z) : pow2 r = powerRZ 2 r.
Proof.
  unfold pow2. destruct (Z.leb_spec 0 r) as [Hr|Hr]; cbn [of_Z fpow Exact].
  - now apply IZR_pow2.
  - reflexivity.
Qed.

Lemma pow2_pos (r : Z) : 0 < pow2 r.
Proof. rewrite pow2_exact. apply powerRZ_lt. lra. Qed.

Lemma pow2_minus_exact (r x : Z) : pow2_minus r x = powerRZ 2 r - IZR x.
Proof.
  unfold pow2_minus.
  destruct (Z.leb_spec 0 r) as [Hr|Hr]; cbn [of_Z fpow fsub Exact].
  - now rewrite minus_IZR, IZR_pow2.
  - reflexivity.
Qed.

Lemma linear_tf_exact (vcc offset gain : R) (r x : Z) :
  linear_tf vcc offset gain r x
  = (IZR x * vcc / powerRZ 2 r - vcc * offset) / gain.
Proof.
  unfold linear_tf. rewrite pow2_exact. reflexivity.
Qed.

Lemma ohm_tf_exact (r x : Z) :
  ohm_tf r x = (1e4 * IZR x) / (powerRZ 2 r - IZR x).
Proof.
  unfold ohm_tf. rewrite pow2_minus_exact. cbn [of_Z fdiv fmul Exact].
  f_equal. lra.
Qed.

Lemma kelvin_tf_exact (R0 : R) :
  kelvin_tf R0 R0
  = 1 / (1.12764514e-3 + 2.34282709e-4 * ln R0 + 8.77303013e-8 * (ln R0) ^ 3).
Proof.
  unfold kelvin_tf. eval_dec. cbn [flog fpow Exact].
  replace (powerRZ (ln R0) 3) with (ln R0 ^ 3) by (simpl; lra).
  f_equal. lra.
Qed.

(** The gains of the mV transfer functions are positive. *)
Lemma mV_gains_pos (gain : R) : In gain mV_gains -> 0 < gain.
Proof.
  unfold mV_gains. cbn [In]. eval_dec.
  intros [<-|[<-|[<-|[<-|[<-|[]]]]]]; lra.
Qed.

(** A linear transfer function with a positive gain and supply voltage is
    strictly increasing in the raw code. *)
Lemma linear_tf_increasing (vcc offset gain : R) (r x y : Z) :
  0 < vcc -> 0 < gain -> (x < y)%Z ->
  linear_tf vcc offset gain r x < linear_tf vcc offset gain r y.
Proof.
  intros Hvcc Hgain Hxy. rewrite !linear_tf_exact.
  assert (Hp : 0 < powerRZ 2 r) by (apply powerRZ_lt; lra).
  apply IZR_lt in Hxy.
  apply Rmult_lt_compat_r; [now apply Rinv_0_lt_compat|].
  apply Rplus_lt_compat_r.
  apply Rmult_lt_compat_r; [now apply Rinv_0_lt_compat|].
  now apply Rmult_lt_compat_r.
Qed.

(** *** Unit chains *)

(** C2. For TEMP on a PLUX-family device, with an integer resolution, when
    the Kelvin and the Celsius conversions of the same raw samples both
    return, the Celsius samples are the Kelvin samples minus 273.15, one by
    one. *)
Theorem celsius_is_kelvin_minus_273_15
        (device : string) (raw : list Z) (r : Z) (K C : list R) :
  In device plux_devices ->
  raw_to_phy "TEMP" device raw (PyInt r) "K" = Return (Some K) ->
  raw_to_phy "TEMP" device raw (PyInt r) "C" = Return (Some C) ->
  C = map (fun k => k - 273.15) K.
Proof.
  intros Hdev HK HC.
  rewrite (temp_kelvin device raw (PyInt r) r eq_refl Hdev) in HK.
  rewrite (temp_celsius_plux device raw (PyInt r) r eq_refl Hdev) in HC.
  injection HK as <-. injection HC as <-.
  apply map_ext. intros k. eval_dec. lra.
Qed.

Lemma celsius_is_kelvin_minus_273_15_witness :
  exists K C : list R,
    In "bioplux"%string plux_devices /\
    raw_to_phy "TEMP" "bioplux" [1000; 2000]%Z (PyInt 12) "K" = Return (Some K) /\
    raw_to_phy "TEMP" "bioplux" [1000; 2000]%Z (PyInt 12) "C" = Return (Some C) /\
    C = map (fun k => k - 273.15) K.
Proof.
  assert (Hdev : In "bioplux"%string plux_devices) by (simpl; tauto).
  eexists. eexists. split; [exact Hdev|].
  split; [exact (temp_kelvin "bioplux" _ (PyInt 12) 12 eq_refl Hdev)|].
  split; [exact (temp_celsius_plux "bioplux" _ (PyInt 12) 12 eq_refl Hdev)|].
  exact (celsius_is_kelvin_minus_273_15 "bioplux" _ 12 _ _ Hdev
           (temp_kelvin "bioplux" _ (PyInt 12) 12 eq_refl Hdev)
           (temp_celsius_plux "bioplux" _ (PyInt 12) 12 eq_refl Hdev)).
Defined.

(** C3. Whenever the primitive conversion returns: for EMG and ECG the V
    samples are the mV samples divided by 1000; for BVP and each SpO2 sensor
    the A samples are the uA samples times 1e-6. *)
Theorem scale_consistency
        (sensor device : string) (raw : list Z) (r : Z) (prim : list R) :
  (sensor = "EMG"%string \/ sensor = "ECG"%string ->
   raw_to_phy sensor device raw (PyInt r) "mV" = Return (Some prim) ->
   raw_to_phy sensor device raw (PyInt r) "V"
   = Return (Some (map (fun v => v / 1000) prim)))
  /\
  (sensor = "BVP"%string \/ In sensor spo2_sensors ->
   raw_to_phy sensor device raw (PyInt r) "uA" = Return (Some prim) ->
   raw_to_phy sensor device raw (PyInt r) "A"
   = Return (Some (map (fun v => v * 1e-6) prim))).
Proof.
  split; intros Hs Hprim.
  - exact (volt_of_millivolt _ _ _ _ _ Hs Hprim).
  - rewrite (ampere_of_microampere _ _ _ _ _ Hs Hprim).
    apply (f_equal (fun l => Return (Some l))).
    apply map_ext. intros v. eval_dec. lra.
Qed.

Lemma scale_consistency_witness :
  (raw_to_phy "EMG" "bioplux" [0; 2048]%Z (PyInt 12) "V"
   = Return (Some (map (fun v => v / 1000)
                       (map (linear_tf (F:=R) 3 (dec 5 1) 1 12) [0; 2048]%Z))))
  /\
  (raw_to_phy "SpO2.HEAD" "swifter" [0; 2048]%Z (PyInt 12) "A"
   = Return (Some (map (fun v => v * 1e-6)
                       (map (spo2_tf (F:=R) (dec 15 2) 12) [0; 2048]%Z)))).
Proof.
  split.
  - apply (proj1 (scale_consistency "EMG" "bioplux" [0; 2048]%Z 12 _)).
    + left; reflexivity.
    + reflexivity.
  - apply (proj2 (scale_consistency "SpO2.HEAD" "swifter" [0; 2048]%Z 12 _)).
    + right; simpl; tauto.
    + reflexivity.
Defined.

(** *** ECG in mV *)

(** The ECG example: the three samples in exact arithmetic. *)
Lemma ecg_example_exact :
  raw_to_phy "ECG" "bioplux" [0; 2048; 4095]%Z (PyInt 12) "mV"
  = Return (Some [- (1500 / 1019); 0; 1499267578125 / 1019000000000]).
Proof.
  rewrite (ecg_mV_plux "bioplux" _ (PyInt 12) 12 eq_refl)
    by (simpl; tauto).
  cbn [map]. rewrite !linear_tf_exact. eval_dec.
  replace (powerRZ 2 12) with 4096 by (simpl; lra).
  apply (f_equal (fun l => Return (Some l))).
  repeat (apply (f_equal2 cons); [lra|]). reflexivity.
Qed.

(** C4, as stated, fails at the example: the middle sample is 0, not
    0.0015, and the last one is 1.4713, not 1.4746, even with a tolerance
    of a thousandth. *)
Lemma ecg_example_not_as_stated :
  ~ (exists a b c : R,
       raw_to_phy "ECG" "bioplux" [0; 2048; 4095]%Z (PyInt 12) "mV"
       = Return (Some [a; b; c]) /\
       approx 1e-3 a (-1.4720) /\ approx 1e-3 b 0.0015 /\
       approx 1e-3 c 1.4746).
Proof.
  intros (a & b & c & Hout & _ & Hb & _).
  rewrite ecg_example_exact in Hout. injection Hout as _ <- _.
  unfold approx, Rabs in Hb.
  destruct (Rcase_abs (0 - 0.0015)); lra.
Qed.

(** C4, amended. For ECG on a PLUX-family device in mV, with an integer
    resolution [r], every output sample is
    [(raw * 3.0 / 2^r - 3.0 * 0.5) / 1.019]; for bioplux, raw samples
    [0, 2048, 4095] and resolution 12 the output is [-1.4720, 0, 1.4713]
    to four decimals. *)
Theorem ecg_mV_formula (device : string) (raw : list Z) (r : Z) :
  In device plux_devices ->
  raw_to_phy "ECG" device raw (PyInt r) "mV"
  = Return (Some (map (fun x => (IZR x * 3.0 / powerRZ 2 r - 3.0 * 0.5) / 1.019)
                      raw))
  /\
  exists a b c : R,
    raw_to_phy "ECG" "bioplux" [0; 2048; 4095]%Z (PyInt 12) "mV"
    = Return (Some [a; b; c]) /\
    approx 5e-5 a (-1.4720) /\ b = 0 /\ approx 5e-5 c 1.4713.
Proof.
  intros Hdev. split.
  - rewrite (ecg_mV_plux device raw (PyInt r) r eq_refl Hdev).
    apply (f_equal (fun l => Return (Some l))).
    apply map_ext. intros x.
    rewrite linear_tf_exact. eval_dec. f_equal; lra.
  - eexists _, _, _. split; [exact ecg_example_exact|].
    unfold approx. repeat split.
    + apply Rabs_le. lra.
    + apply Rabs_le. lra.
Qed.

Lemma ecg_mV_formula_witness :
  In "swifter"%string plux_devices /\
  raw_to_phy "ECG" "swifter" [7; 100]%Z (PyInt 10) "mV"
  = Return (Some (map (fun x => (IZR x * 3.0 / powerRZ 2 10 - 3.0 * 0.5) / 1.019)
                      [7; 100]%Z)).
Proof.
  assert (Hdev : In "swifter"%string plux_devices) by (simpl; tauto).
  split; [exact Hdev|].
  exact (proj1 (ecg_mV_formula "swifter" [7; 100]%Z 10 Hdev)).
Defined.

(** *** TEMP in Ohm and Kelvin *)

(** C5. For TEMP on a PLUX-family device, with an integer resolution [r]:
    the Ohm output is [(1e4 * raw) / (2^r - raw)] sample by sample, wherever
    no denominator is zero; and for raw samples with [0 < raw < 2^r], where
    the resistance is positive and has a logarithm, the Kelvin output is
    [1 / (a0 + a1 ln R + a2 (ln R)^3)] sample by sample, [R] being the Ohm
    output, with the three coefficients of the module. *)
Theorem temp_ohm_kelvin_formulas (device : string) (raw : list Z) (r : Z) :
  In device plux_devices ->
  let ohm := map (fun x => (1e4 * IZR x) / (powerRZ 2 r - IZR x)) raw in
  (Forall (fun x => powerRZ 2 r - IZR x <> 0) raw ->
   raw_to_phy "TEMP" device raw (PyInt r) "Ohm" = Return (Some ohm))
  /\
  (Forall (fun x => (0 < x < 2 ^ r)%Z) raw ->
   Forall (fun x => powerRZ 2 r - IZR x <> 0) raw /\
   Forall (fun R0 => 0 < R0) ohm /\
   raw_to_phy "TEMP" device raw (PyInt r) "K"
   = Return (Some (map (fun R0 =>
                          1 / (1.12764514e-3 + 2.34282709e-4 * ln R0
                               + 8.77303013e-8 * (ln R0) ^ 3)) ohm))).
Proof.
  intros Hdev ohm.
  assert (Hohm : map (ohm_tf r) raw = ohm).
  { apply map_ext. intros x. apply ohm_tf_exact. }
  split.
  - intros _.
    rewrite (temp_ohm device raw (PyInt r) r eq_refl Hdev). now rewrite Hohm.
  - intros Hraw.
    assert (Hden : Forall (fun x => 0 < IZR x /\ 0 < powerRZ 2 r - IZR x) raw).
    { eapply Forall_impl; [|exact Hraw]. cbn beta. intros x [Hx0 Hx1].
      assert (Hr : (0 <= r)%Z).
      { destruct (Z.le_gt_cases 0 r) as [Hr | Hr]; [exact Hr|].
        rewrite Z.pow_neg_r in Hx1 by lia. lia. }
      apply IZR_lt in Hx0. apply IZR_lt in Hx1.
      rewrite (IZR_pow2 r Hr) in Hx1. lra. }
    split; [|split].
    + eapply Forall_impl; [|exact Hden]. cbn beta. intros x [_ Hx]. lra.
    + unfold ohm. apply Forall_map.
      eapply Forall_impl; [|exact Hden]. cbn beta. intros x [Hx0 Hx1].
      apply Rdiv_lt_0_compat; lra.
    + rewrite (temp_kelvin device raw (PyInt r) r eq_refl Hdev). rewrite Hohm.
      apply (f_equal (fun l => Return (Some l))).
      apply map_ext. intros R0. apply kelvin_tf_exact.
Qed.

Lemma temp_ohm_kelvin_formulas_witness :
  In "rachimeter"%string plux_devices /\
  Forall (fun x => (0 < x < 2 ^ 12)%Z) [1000; 2000]%Z /\
  Forall (fun x => powerRZ 2 12 - IZR x <> 0) [1000; 2000]%Z /\
  raw_to_phy "TEMP" "rachimeter" [1000; 2000]%Z (PyInt 12) "Ohm"
  = Return (Some (map (fun x => (1e4 * IZR x) / (powerRZ 2 12 - IZR x))
                      [1000; 2000]%Z)) /\
  raw_to_phy "TEMP" "rachimeter" [1000; 2000]%Z (PyInt 12) "K"
  = Return (Some (map (fun R0 =>
                         1 / (1.12764514e-3 + 2.34282709e-4 * ln R0
                              + 8.77303013e-8 * (ln R0) ^ 3))
                      (map (fun x => (1e4 * IZR x) / (powerRZ 2 12 - IZR x))
                           [1000; 2000]%Z))).
Proof.
  assert (Hdev : In "rachimeter"%string plux_devices) by (simpl; tauto).
  assert (Hraw : Forall (fun x => (0 < x < 2 ^ 12)%Z) [1000; 2000]%Z).
  { repeat constructor; simpl; lia. }
  destruct (temp_ohm_kelvin_formulas "rachimeter" [1000; 2000]%Z 12 Hdev)
    as [Hohm HK].
  destruct (HK Hraw) as (Hden & _ & Hkelvin).
  split; [exact Hdev|]. split; [exact Hraw|]. split; [exact Hden|].
  split; [exact (Hohm Hden) | exact Hkelvin].
Defined.

(** C10. For TEMP in Ohm on a PLUX-family device with a positive integer
    resolution [r], when every raw sample lies in [0, 2^r): each
    denominator [2^r - raw] is positive and each output sample is
    non-negative.  At a raw sample equal to [2^r] the denominator is zero:
    the sample is a division by zero. *)
Theorem temp_ohm_denominator (device : string) (raw : list Z) (r : Z) :
  In device plux_devices -> (0 < r)%Z ->
  Forall (fun x => (0 <= x < 2 ^ r)%Z) raw ->
  Forall (fun x => 0 < pow2_minus r x) raw /\
  (exists out : list R,
      raw_to_phy "TEMP" device raw (PyInt r) "Ohm" = Return (Some out) /\
      out = map (fun x => 1e4 * IZR x / pow2_minus r x) raw /\
      Forall (fun v => 0 <= v) out) /\
  pow2_minus (F:=R) r (2 ^ r) = 0 /\
  ohm_tf (F:=R) r (2 ^ r) = 1e4 * IZR (2 ^ r) / 0.
Proof.
  intros Hdev Hr Hraw.
  assert (Hden : Forall (fun x => 0 < pow2_minus (F:=R) r x) raw).
  { eapply Forall_impl; [|exact Hraw]. cbn beta. intros x [_ Hx].
    rewrite pow2_minus_exact, <- IZR_pow2 by lia.
    apply IZR_lt in Hx. lra. }
  assert (Hzero : pow2_minus (F:=R) r (2 ^ r) = 0).
  { rewrite pow2_minus_exact, <- IZR_pow2 by lia. lra. }
  split; [exact Hden|]. split; [|split; [exact Hzero|]].
  - eexists. split; [exact (temp_ohm device raw (PyInt r) r eq_refl Hdev)|].
    split.
    + apply map_ext. intros x. unfold ohm_tf. cbn [of_Z fdiv fmul Exact].
      f_equal. lra.
    + apply Forall_map. rewrite Forall_forall in Hraw, Hden |- *.
      intros x Hx. specialize (Hraw x Hx). specialize (Hden x Hx).
      unfold ohm_tf. cbn [of_Z fdiv fmul Exact].
      apply Rmult_le_pos.
      * apply Rmult_le_pos; [lra | apply IZR_le; lia].
      * left. now apply Rinv_0_lt_compat.
  - unfold ohm_tf. rewrite Hzero. cbn [of_Z fdiv fmul Exact]. f_equal. lra.
Qed.

Lemma temp_ohm_denominator_witness :
  In "bioplux"%string plux_devices /\ (0 < 12)%Z /\
  Forall (fun x => (0 <= x < 2 ^ 12)%Z) [0; 2048; 4095]%Z /\
  Forall (fun x => 0 < pow2_minus (F:=R) 12 x) [0; 2048; 4095]%Z.
Proof.
  assert (Hdev : In "bioplux"%string plux_devices) by (simpl; tauto).
  assert (Hraw : Forall (fun x => (0 <= x < 2 ^ 12)%Z) [0; 2048; 4095]%Z).
  { repeat constructor; simpl; lia. }
  split; [exact Hdev|]. split; [lia|]. split; [exact Hraw|].
  exact (proj1 (temp_ohm_denominator "bioplux" [0; 2048; 4095]%Z 12
                  Hdev eq_refl Hraw)).
Defined.

(** *** Monotonicity *)

(** C9. For EMG or ECG, a supported device and a positive integer
    resolution, the mV conversion is strictly increasing in the raw code:
    for raw codes [x < y] the converted value of [x] is below that of [y]. *)
Theorem mV_strictly_increasing (sensor device : string) (r x y : Z) :
  sensor = "EMG"%string \/ sensor = "ECG"%string ->
  In device (plux_devices ++ bitalino_devices) ->
  (0 < r)%Z -> (x < y)%Z ->
  exists vx vy : R,
    raw_to_phy sensor device [x] (PyInt r) "mV" = Return (Some [vx]) /\
    raw_to_phy sensor device [y] (PyInt r) "mV" = Return (Some [vy]) /\
    vx < vy.
Proof.
  intros Hs Hdev _ Hxy.
  destruct (mV_dispatch sensor device (PyInt r) r eq_refl Hs Hdev)
    as (gain & Hgain & Hout).
  exists (linear_tf 3 (dec 5 1) gain r x), (linear_tf 3 (dec 5 1) gain r y).
  split; [exact (Hout [x])|]. split; [exact (Hout [y])|].
  apply linear_tf_increasing; [lra | now apply mV_gains_pos | exact Hxy].
Qed.

Lemma mV_strictly_increasing_witness :
  exists vx vy : R,
    raw_to_phy "EMG" "bitalino_rev" [100]%Z (PyInt 10) "mV" = Return (Some [vx]) /\
    raw_to_phy "EMG" "bitalino_rev" [101]%Z (PyInt 10) "mV" = Return (Some [vy]) /\
    vx < vy.
Proof.
  apply (mV_strictly_increasing "EMG" "bitalino_rev" 10 100 101).
  - left; reflexivity.
  - simpl; tauto.
  - lia.
  - lia.
Defined.

End ExactFacts.

(** ** What is rejected and what is not *)

Section Rejection.

Context {F : Type} {arith : Float64 F}.

(** C1. The claim fails on the code: with sensor EMG, an integer resolution
    and the unit K, which EMG does not support, [raw_to_phy] raises nothing
    and returns [None]; the TEMP branch does raise on a unit it does not
    support. *)
Theorem emg_unsupported_unit_returns_None :
  raw_to_phy (F:=F) "EMG" "bioplux" [0; 2048; 4095]%Z (PyInt 12) "K"
  = Return None
  /\
  raw_to_phy (F:=F) "TEMP" "bioplux" [0; 2048; 4095]%Z (PyInt 12) "V"
  = Raise UnsupportedUnit.
Proof.
  split.
  - apply (unit_falls_through _ _ _ _ 12); [reflexivity | | discriminate |].
    + simpl; tauto.
    + vm_compute. intros [H | [H | []]]; discriminate H.
  - apply (temp_unit_rejected _ _ _ 12); [reflexivity|].
    simpl. intros [H | [H | [H | []]]]; discriminate H.
Qed.

(** C8, amended. Whatever the sensor, the device, the raw samples and the
    unit, [raw_to_phy] fails with the resolution error exactly when the
    resolution is not a Python integer; the check comes before the sensor,
    the device or the unit are looked at, and it lets every integer
    through, positive or not. *)
Theorem resolution_rejected_iff_not_int
        (sensor device : string) (raw : list Z) (res : pyobj F) (opt : string) :
  raw_to_phy sensor device raw res opt = Raise InvalidResolution
  <-> as_int res = None.
Proof.
  split.
  - intros Hraise. destruct (as_int res) as [r|] eqn:Hres; [|reflexivity].
    exfalso.
    exact (raw_to_phy_int_not_InvalidResolution _ _ _ _ _ r Hres Hraise).
  - apply raw_to_phy_not_int.
Qed.

End Rejection.

(** ** The resolution check at concrete resolutions *)

Section ResolutionCheck.

Local Open Scope R_scope.

(** C8, as stated, fails at a resolution of 0 and at a negative one: both
    are integers, so the check lets them through and the samples are
    converted with [2 ** 0 = 1] and [2 ** -1 = 0.5]. *)
Lemma nonpositive_resolution_accepted :
  raw_to_phy (F:=R) "ECG" "bioplux" [1%Z] (PyInt 0) "mV"
  = Return (Some [1500 / 1019]) /\
  raw_to_phy (F:=R) "ECG" "bioplux" [1%Z] (PyInt (-1)) "mV"
  = Return (Some [4500 / 1019]).
Proof.
  assert (Hdev : In "bioplux"%string plux_devices) by (simpl; tauto).
  split.
  - rewrite (ecg_mV_plux "bioplux" _ (PyInt 0) 0 eq_refl Hdev).
    cbn [map]. rewrite linear_tf_exact.
    unfold dec. cbn [of_Z fdiv Exact powerRZ].
    change (10 ^ 1)%Z with 10%Z. change (10 ^ 3)%Z with 1000%Z.
    apply (f_equal (fun l => Return (Some l))).
    apply (f_equal2 cons); [lra | reflexivity].
  - rewrite (ecg_mV_plux "bioplux" _ (PyInt (-1)) (-1) eq_refl Hdev).
    cbn [map]. rewrite linear_tf_exact.
    replace (powerRZ 2 (-1)) with (1 / 2) by (simpl; lra).
    unfold dec. cbn [of_Z fdiv Exact].
    change (10 ^ 1)%Z with 10%Z. change (10 ^ 3)%Z with 1000%Z.
    apply (f_equal (fun l => Return (Some l))).
    apply (f_equal2 cons); [lra | reflexivity].
Qed.

Lemma resolution_rejected_iff_not_int_witness :
  as_int (PyFloat (12.5 : R)) = None /\
  raw_to_phy (F:=R) "ECG" "bioplux" [0; 2048; 4095]%Z (PyFloat 12.5) "mV"
  = Raise InvalidResolution.
Proof.
  split; [reflexivity|].
  apply (proj2 (resolution_rejected_iff_not_int
                  (F:=R) "ECG" "bioplux" [0; 2048; 4095]%Z (PyFloat 12.5) "mV")).
  reflexivity.
Defined.

End ResolutionCheck.

(** ** The time axis in exact arithmetic *)

Section TimeAxis.

Local Open Scope R_scope.

(** The samples of [linspace] from 0: the [i]-th is [i] steps of
    [stop / (num - 1)], the last one included. *)
Lemma linspace_from_zero (stop : R) (m : nat) :
  linspace 0 stop (S (S m))
  = map (fun i => INR i * (stop / INR (S m))) (seq 0 (S m)) ++ [stop].
Proof.
  unfold linspace.
  replace (1 <? S (S m))%nat with true by (symmetry; apply Nat.ltb_lt; lia).
  replace (0 <? Z.of_nat (S (S m)) - 1)%Z with true
    by (symmetry; apply Z.ltb_lt; lia).
  replace (Z.of_nat (S (S m)) - 1)%Z with (Z.of_nat (S m)) by lia.
  cbn [of_Z fadd fsub fmul fdiv feqb Exact].
  assert (Hdiv : IZR (Z.of_nat (S m)) <> 0).
  { rewrite <- INR_IZR_INZ. apply not_0_INR. discriminate. }
  unfold set_last. rewrite (seq_S (S m)), Nat.add_0_l.
  destruct (Req_bool _ _);
    rewrite !map_app; cbn [map]; rewrite removelast_last; f_equal;
    rewrite !map_map; apply map_ext; intros i;
    rewrite <- !INR_IZR_INZ in *; field; exact Hdiv.
Qed.

Lemma linspace_nth (stop : R) (m i : nat) :
  (i <= S m)%nat ->
  nth i (linspace 0 stop (S (S m))) 0 = INR i * (stop / INR (S m)).
Proof.
  intros Hi. rewrite linspace_from_zero.
  set (f := fun i : nat => INR i * (stop / INR (S m))).
  assert (Hlen : List.length (map f (seq 0 (S m))) = S m)
    by now rewrite length_map, length_seq.
  destruct (Nat.eq_dec i (S m)) as [-> | Hne].
  - rewrite app_nth2 by lia. rewrite Hlen, Nat.sub_diag. cbn [nth].
    unfold f. field. apply not_0_INR. discriminate.
  - rewrite app_nth1 by lia.
    rewrite (nth_indep _ 0 (f 0%nat)) by lia.
    rewrite map_nth, seq_nth by lia. reflexivity.
Qed.

Lemma generate_time_exact {A : Type} (signal : list A) (sample_rate : Z) :
  sample_rate <> 0%Z ->
  generate_time signal sample_rate
  = Return (linspace 0 (INR (List.length signal) / IZR sample_rate)
                     (List.length signal)).
Proof.
  intros Hrate. rewrite generate_time_nonzero_rate by exact Hrate.
  cbn [of_Z fdiv Exact]. now rewrite <- INR_IZR_INZ.
Qed.

(** C6, as stated, fails on a signal of one sample: the only timestamp is 0,
    which is not [1 / sample_rate]. *)
Lemma generate_time_single_sample :
  exists ts : list R,
    generate_time [5%Z] 1 = Return ts /\
    ts = [0] /\ last ts 0 <> INR 1 / IZR 1.
Proof.
  exists [0]. split; [|split].
  - rewrite generate_time_exact by discriminate.
    apply (f_equal Return).
    unfold linspace. cbn [List.length Z.of_nat Pos.of_succ_nat Z.sub Z.add
                          Z.opp Z.pos_sub Z.ltb Z.compare Nat.ltb Nat.leb
                          seq map of_Z fadd fsub fmul Exact].
    f_equal. lra.
  - reflexivity.
  - cbn [last INR]. lra.
Qed.

(** C6, amended. For a signal of [n >= 2] samples and a positive sample
    rate, [generate_time] returns exactly [n] timestamps, evenly spaced and
    strictly increasing, the first one 0 and the last one
    [n / sample_rate]; on 1000 samples at rate 1000 the first is 0, the
    last is 1 and the spacing is 1/999. *)
Theorem generate_time_axis {A : Type} (signal : list A) (sample_rate : Z) :
  let n := List.length signal in
  let stop := INR n / IZR sample_rate in
  (2 <= n)%nat -> (0 < sample_rate)%Z ->
  exists ts : list R,
    generate_time signal sample_rate = Return ts /\
    List.length ts = n /\
    nth 0 ts 0 = 0 /\
    last ts 0 = stop /\
    (forall i : nat, (S i < n)%nat ->
                     nth (S i) ts 0 - nth i ts 0 = stop / INR (n - 1)) /\
    (forall i : nat, (S i < n)%nat -> nth i ts 0 < nth (S i) ts 0) /\
    (n = 1000%nat -> sample_rate = 1000%Z ->
     nth 0 ts 0 = 0 /\ last ts 0 = 1 /\
     forall i : nat, (S i < n)%nat -> nth (S i) ts 0 - nth i ts 0 = 1 / 999).
Proof.
  intros n stop Hn Hrate.
  assert (Hgen := generate_time_exact signal sample_rate ltac:(lia)).
  fold n in Hgen. fold stop in Hgen.
  destruct n as [|[|m]] eqn:En; [lia | lia |].
  assert (Hm : 0 < INR (S m)) by (apply lt_0_INR; lia).
  assert (Hstop : 0 < stop).
  { unfold stop. apply Rdiv_lt_0_compat; [apply lt_0_INR; lia|].
    now apply IZR_lt. }
  assert (Hfirst : nth 0 (linspace 0 stop (S (S m))) 0 = 0).
  { rewrite linspace_nth by lia. cbn [INR]. lra. }
  assert (Hlast : last (linspace 0 stop (S (S m))) 0 = stop).
  { rewrite linspace_from_zero. apply last_last. }
  assert (Hstep : forall i : nat, (S i < S (S m))%nat ->
            nth (S i) (linspace 0 stop (S (S m))) 0
            - nth i (linspace 0 stop (S (S m))) 0 = stop / INR (S m)).
  { intros i Hi. rewrite !linspace_nth by lia. rewrite S_INR. lra. }
  exists (linspace 0 stop (S (S m))).
  split; [exact Hgen|]. split; [apply linspace_length|].
  split; [exact Hfirst|]. split; [exact Hlast|].
  replace (S (S m) - 1)%nat with (S m) by lia.
  split; [exact Hstep|]. split.
  - intros i Hi. specialize (Hstep i Hi).
    assert (0 < stop / INR (S m)) by now apply Rdiv_lt_0_compat.
    lra.
  - intros E1000 ->. injection E1000 as ->.
    assert (Hstop1 : stop = 1).
    { unfold stop. replace (INR 1000) with 1000; [lra|].
      rewrite INR_IZR_INZ. reflexivity. }
    split; [exact Hfirst|]. split; [now rewrite Hlast|].
    intros i Hi. rewrite (Hstep i Hi), Hstop1.
    replace (INR 999) with 999; [reflexivity|].
    rewrite INR_IZR_INZ. reflexivity.
Qed.

Lemma generate_time_axis_witness :
  exists ts : list R,
    generate_time [10; 20; 30; 40]%Z 2 = Return ts /\
    List.length ts = 4%nat /\
    nth 0 ts 0 = 0 /\
    last ts 0 = INR 4 / IZR 2.
Proof.
  destruct (generate_time_axis [10; 20; 30; 40]%Z 2 ltac:(simpl; lia) eq_refl)
    as (ts & Hgen & Hlen & Hfirst & Hlast & _).
  exists ts. repeat split; assumption.
Defined.

(** C7, as stated, fails at a negative sample rate: three samples at rate
    -1 give the timestamps 0, -1.5 and -3, and nothing is raised. *)
Lemma generate_time_negative_rate :
  generate_time (F:=R) [10; 20; 30]%Z (-1) = Return [0; -1.5; -3].
Proof.
  rewrite generate_time_exact by discriminate.
  apply (f_equal Return). cbn [List.length].
  rewrite linspace_from_zero. cbn [seq map app INR].
  repeat (apply (f_equal2 cons); [lra|]). reflexivity.
Qed.

(** C7, amended. With a sample rate of zero [generate_time] fails, on the
    division; with a negative sample rate it does not fail, and returns as
    many timestamps as the signal has samples, which for a signal of two
    samples or more run from 0 to the negative [n / sample_rate]. *)
Theorem generate_time_nonpositive_rate
        {A : Type} (signal : list A) (sample_rate : Z) :
  let n := List.length signal in
  (sample_rate <= 0)%Z ->
  (sample_rate = 0%Z /\
   generate_time (F:=R) signal sample_rate = Raise ZeroDivisionError)
  \/
  ((sample_rate < 0)%Z /\
   exists ts : list R,
     generate_time signal sample_rate = Return ts /\
     List.length ts = n /\
     ((2 <= n)%nat ->
      nth 0 ts 0 = 0 /\
      last ts 0 = INR n / IZR sample_rate /\
      INR n / IZR sample_rate < 0)).
Proof.
  intros n Hrate. destruct (Z.eq_dec sample_rate 0) as [-> | Hnz].
  - left. split; [reflexivity | apply generate_time_zero_rate].
  - right. split; [lia|].
    exists (linspace 0 (INR n / IZR sample_rate) n).
    split; [now apply generate_time_exact|].
    split; [apply linspace_length|].
    intros Hn. destruct n as [|[|m]]; [lia | lia |].
    split; [|split].
    + rewrite linspace_nth by lia. cbn [INR]. lra.
    + rewrite linspace_from_zero. apply last_last.
    + assert (Hr : IZR sample_rate < 0) by (apply IZR_lt; lia).
      assert (Hn0 : 0 < INR (S (S m))) by (apply lt_0_INR; lia).
      apply Rinv_lt_0_compat in Hr.
      unfold Rdiv. rewrite <- (Rmult_0_r (INR (S (S m)))).
      now apply Rmult_lt_compat_l.
Qed.

Lemma generate_time_nonpositive_rate_witness :
  exists ts : list R,
    (-1 <= 0)%Z /\
    generate_time [10; 20; 30]%Z (-1) = Return ts /\
    List.length ts = 3%nat /\
    nth 0 ts 0 = 0 /\
    last ts 0 = INR 3 / IZR (-1).
Proof.
  destruct (generate_time_nonpositive_rate [10; 20; 30]%Z (-1) ltac:(lia))
    as [[Hzero _] | (_ & ts & Hgen & Hlen & Hends)]; [discriminate Hzero|].
  destruct (Hends ltac:(simpl; lia)) as (Hfirst & Hlast & _).
  exists ts. split; [lia|]. repeat split; assumption.
Defined.

End TimeAxis.

(** ** Runs in binary64 *)

Section Binary64Runs.

Variables (log64 : float -> float) (pow64 : float -> Z -> float).

Let B64 : Float64 float := Binary64 log64 pow64.
#[local] Existing Instance B64.

(** [dec] yields the binary64 numbers Python reads the literals of the
    module as. *)
Example literals_binary64 :
  [dec (F:=float) 5 1; dec 1008 3; dec 1009 3; dec 1019 3; dec 11 1;
   dec 190060606 9; dec 12 1; dec 15 2; dec 27315 2; dec 1 6; a_0; a_1; a_2]
  = [0.5; 1.008; 1.009; 1.019; 1.1; 0.190060606; 1.2; 0.15; 273.15; 1e-6;
     1.12764514e-3; 2.34282709e-4; 8.77303013e-8]%float.
Proof. vm_compute. reflexivity. Qed.

Example ecg_example_binary64 :
  raw_to_phy (F:=float) "ECG" "bioplux" [0; 2048; 4095]%Z (PyInt 12) "mV"
  = Return (Some [-1.4720314033366046; 0; 1.4713126380029442]%float).
Proof. vm_compute. reflexivity. Qed.

Example emg_kelvin_binary64 :
  raw_to_phy (F:=float) "EMG" "bioplux" [0; 2048; 4095]%Z (PyInt 12) "K"
  = Return None.
Proof. vm_compute. reflexivity. Qed.

Example temp_ohm_full_scale_binary64 :
  raw_to_phy (F:=float) "TEMP" "bioplux" [0; 2048; 4096]%Z (PyInt 12) "Ohm"
  = Return (Some [0; 10000; infinity]%float).
Proof. vm_compute. reflexivity. Qed.

Example generate_time_binary64 :
  generate_time (F:=float) [10; 20; 30; 40; 50]%Z 5
  = Return [0; 0.25; 0.5; 0.75; 1]%float.
Proof. vm_compute. reflexivity. Qed.

Example generate_time_1000_binary64 :
  match generate_time (F:=float) (repeat 0%Z 1000) 1000 with
  | Return ts =>
      (List.length ts, nth 0 ts nan, nth 1 ts nan, nth 999 ts nan)
      = (1000%nat, 0%float, PrimFloat.div 1 999, 1%float)
  | _ => False
  end.
Proof. vm_compute. reflexivity. Qed.

Example generate_time_negative_rate_binary64 :
  generate_time (F:=float) [10; 20; 30]%Z (-1)
  = Return [0; -1.5; -3]%float.
Proof. vm_compute. reflexivity. Qed.

End Binary64Runs.


(** ** The dispatch as a whole *)

(** Membership of a variable device in a list of literals, kept as a
    hypothesis. *)
Ltac split_device :=
  match goal with
  | |- context [py_in ?d ?l] =>
      is_var d; let E := fresh "Hin" in
      destruct (py_in d l) eqn:E;
      [apply py_in_In in E | apply not_true_iff_false in E; rewrite py_in_In in E]
  end.

(** Evaluate the membership and substring tests on a sensor that is known. *)
Ltac eval_str_in :=
  repeat match goal with
  | |- context [str_in ?a ?b] =>
      tryif is_var b then fail else
        (let v := eval vm_compute in (str_in a b) in
         change (str_in a b) with v)
  | |- context [py_in ?a ?l] =>
      tryif is_var a then fail else
        (let v := eval vm_compute in (py_in a l) in
         change (py_in a l) with v)
  end;
  cbn [orb].

Section Dispatch.

Context {F : Type} {arith : Float64 F}.

Implicit Types (sensor device opt : string) (raw : list Z) (res : pyobj F).

(** Every call of [raw_to_phy] either converts the samples one by one, with
    a function that does not depend on the list, or has an outcome, not an
    array, that does not depend on the list. *)
Lemma raw_to_phy_shape sensor device res opt :
  (exists f : Z -> F,
      forall raw, raw_to_phy sensor device raw res opt = Return (Some (map f raw)))
  \/
  (exists o : outcome (option (list F)),
      (forall out, o <> Return (Some out)) /\
      forall raw, raw_to_phy sensor device raw res opt = o).
Proof.
  unfold raw_to_phy. step_raw_to_phy.
  repeat (split_dispatch; step_raw_to_phy);
    first
      [ left; eexists; intros raw;
        rewrite ?map_combine_diag, ?map_map; reflexivity
      | right; eexists; split; [|intros raw; reflexivity]; discriminate ].
Qed.

(** X4. The array [raw_to_phy] returns has one sample per raw sample. *)
Theorem raw_to_phy_length sensor device raw res opt (out : list F) :
  raw_to_phy sensor device raw res opt = Return (Some out) ->
  List.length out = List.length raw.
Proof.
  intros Hout.
  destruct (raw_to_phy_shape sensor device res opt)
    as [(f & Hf) | (o & Ho & Hf)]; rewrite Hf in Hout.
  - injection Hout as <-. apply length_map.
  - now apply Ho in Hout.
Qed.

(** X5. Converting two chunks of samples and joining the results is
    converting the joined chunks. *)
Theorem raw_to_phy_app sensor device raw1 raw2 res opt (out1 out2 : list F) :
  raw_to_phy sensor device raw1 res opt = Return (Some out1) ->
  raw_to_phy sensor device raw2 res opt = Return (Some out2) ->
  raw_to_phy sensor device (raw1 ++ raw2) res opt = Return (Some (out1 ++ out2)).
Proof.
  intros H1 H2.
  destruct (raw_to_phy_shape sensor device res opt)
    as [(f & Hf) | (o & Ho & Hf)]; rewrite Hf in H1, H2 |- *.
  - injection H1 as <-. injection H2 as <-. now rewrite map_app.
  - now apply Ho in H1.
Qed.

(** X6. Whether [raw_to_phy] returns an array is decided by the sensor, the
    device, the resolution and the unit alone: when a call does not return
    an array, the same call on any other samples has the same outcome. *)
Theorem raw_to_phy_failure_ignores_samples sensor device raw raw' res opt :
  (forall out, raw_to_phy sensor device raw res opt <> Return (Some out)) ->
  raw_to_phy sensor device raw' res opt = raw_to_phy sensor device raw res opt.
Proof.
  intros Hfail.
  destruct (raw_to_phy_shape sensor device res opt)
    as [(f & Hf) | (o & Ho & Hf)].
  - exfalso. exact (Hfail _ (Hf raw)).
  - now rewrite !Hf.
Qed.

(** X7. [raw_to_phy] never fails on a [None]: the scale factor of an SpO2
    sensor is set whenever it is used, and no self call hands [None] to
    numpy. *)
Theorem raw_to_phy_never_TypeError sensor device raw res opt :
  raw_to_phy sensor device raw res opt <> Raise TypeError.
Proof.
  unfold raw_to_phy. step_raw_to_phy.
  repeat (eval_str_in; split_dispatch; step_raw_to_phy); discriminate.
Qed.

(** X1. With an integer resolution, a sensor label outside the seven of the
    module is rejected with the sensor error, whatever the device, the
    samples and the unit. *)
Theorem unsupported_sensor_rejected sensor device raw res (r : Z) opt :
  as_int res = Some r ->
  ~ In sensor supported_sensors ->
  raw_to_phy sensor device raw res opt = Raise UnsupportedSensor.
Proof.
  intros Hres Hs. unfold raw_to_phy. step_raw_to_phy. rewrite Hres.
  repeat match goal with
  | |- context [String.eqb sensor ?l] =>
      destruct (String.eqb_spec sensor l);
      [exfalso; apply Hs; subst sensor; simpl; tauto|]
  end.
  replace (py_in sensor spo2_sensors) with false; [reflexivity|].
  symmetry. apply not_true_iff_false. rewrite py_in_In.
  intros Hin. apply Hs. simpl in Hin |- *. tauto.
Qed.

(** X2. With an integer resolution, a supported sensor and a unit the sensor
    supports, a device the pair has no transfer function for is rejected
    with the device error; the derived units (K, V, A) pass on the error of
    the unit they are computed from. *)
Theorem unsupported_device_rejected sensor device raw res (r : Z) opt :
  as_int res = Some r ->
  In sensor supported_sensors ->
  In opt (supported_units sensor) ->
  ~ In device (supported_devices sensor opt) ->
  raw_to_phy sensor device raw res opt = Raise UnsupportedDeviceForUnit.
Proof.
  intros Hres Hs Hopt Hdev. unfold raw_to_phy.
  simpl in Hs. intuition (try subst sensor; try contradiction);
    vm_compute in Hopt; intuition (try subst opt; try contradiction);
    cbv [supported_devices String.eqb Ascii.eqb Bool.eqb orb] in Hdev;
    fold plux_devices bitalino_devices spo2_devices in Hdev;
    rewrite ?in_app_iff in Hdev;
    step_raw_to_phy; rewrite ?Hres; eval_str_in; step_raw_to_phy;
    rewrite ?Hres;
    repeat (split_device; step_raw_to_phy);
    try reflexivity; exfalso; apply Hdev; simpl in *; tauto.
Qed.

Lemma supported_returns_array sensor device raw res (r : Z) opt :
  as_int res = Some r ->
  In sensor supported_sensors ->
  In opt (supported_units sensor) ->
  In device (supported_devices sensor opt) ->
  exists out : list F, raw_to_phy sensor device raw res opt = Return (Some out).
Proof.
  intros Hres Hs Hopt Hdev. unfold raw_to_phy.
  simpl in Hs. intuition (try subst sensor; try contradiction);
    vm_compute in Hopt; intuition (try subst opt; try contradiction);
    cbv [supported_devices String.eqb Ascii.eqb Bool.eqb orb] in Hdev;
    simpl in Hdev; intuition (try subst device; try contradiction);
    eexists; step_raw_to_phy; rewrite ?Hres; eval_str_in; step_raw_to_phy;
    rewrite ?Hres; step_raw_to_phy; reflexivity.
Qed.

(** X3. With an integer resolution, [raw_to_phy] returns an array exactly
    when the sensor is one of the seven, the unit is one the sensor supports
    and the device is one the pair has a transfer function for. *)
Theorem raw_to_phy_returns_array_iff sensor device raw res (r : Z) opt :
  as_int res = Some r ->
  (exists out : list F, raw_to_phy sensor device raw res opt = Return (Some out))
  <->
  (In sensor supported_sensors /\ In opt (supported_units sensor) /\
   In device (supported_devices sensor opt)).
Proof.
  intros Hres. split.
  - intros [out Hout].
    destruct (in_dec string_dec sensor supported_sensors) as [Hs | Hs].
    2: { rewrite (unsupported_sensor_rejected _ _ _ _ r _ Hres Hs) in Hout.
         discriminate. }
    destruct (in_dec string_dec opt (supported_units sensor)) as [Hopt | Hopt].
    2: { exfalso. destruct (string_dec sensor "TEMP") as [-> | Htemp].
         - rewrite (temp_unit_rejected _ _ _ r _ Hres Hopt) in Hout.
           discriminate.
         - rewrite (unit_falls_through _ _ _ _ r _ Hres Hs Htemp Hopt) in Hout.
           discriminate. }
    destruct (in_dec string_dec device (supported_devices sensor opt))
      as [Hdev | Hdev]; [tauto|].
    rewrite (unsupported_device_rejected _ _ _ _ r _ Hres Hs Hopt Hdev) in Hout.
    discriminate.
  - intros (Hs & Hopt & Hdev). now apply (supported_returns_array _ _ _ _ r).
Qed.

(** *** The remaining primitive units *)

Lemma bvp_uA device raw res (r : Z) :
  as_int res = Some r -> In device plux_devices ->
  raw_to_phy "BVP" device raw res "uA"
  = Return (Some (map (linear_tf (of_Z 3) (of_Z 0) (dec 190060606 9) r) raw)).
Proof.
  intros Hres Hdev. apply py_in_In in Hdev. unfold raw_to_phy. step_raw_to_phy.
  now rewrite Hres, Hdev.
Qed.

(** The scale factor of an SpO2 sensor. *)
Lemma spo2_uA sensor device raw res (r : Z) :
  as_int res = Some r -> In sensor spo2_sensors -> In device spo2_devices ->
  raw_to_phy sensor device raw res "uA"
  = Return (Some (map (spo2_tf (if (sensor =? "SpO2.HEAD")%string
                                then dec 15 2 else dec 12 1) r) raw)).
Proof.
  intros Hres Hs Hdev. apply py_in_In in Hdev. unfold raw_to_phy.
  simpl in Hs. intuition (try subst sensor; try contradiction);
    step_raw_to_phy; rewrite Hres; eval_str_in; step_raw_to_phy;
    now rewrite Hdev.
Qed.

Lemma temp_celsius_bitalino device raw res (r : Z) :
  as_int res = Some r -> In device bitalino_devices ->
  raw_to_phy "TEMP" device raw res "C"
  = Return (Some (map (bitalino_celsius_tf (of_Z 3) r) raw)).
Proof.
  intros Hres Hdev. unfold raw_to_phy.
  simpl in Hdev. intuition (try subst device; try contradiction);
    step_raw_to_phy; rewrite Hres; eval_str_in; reflexivity.
Qed.

End Dispatch.


(** ** Ranges and orderings in exact arithmetic *)

Section ExactRanges.

Local Open Scope R_scope.

(** An in-range raw code is a fraction of the full scale. *)
Lemma code_fraction (r x : Z) :
  (0 <= r)%Z -> (0 <= x < 2 ^ r)%Z ->
  0 <= IZR x / powerRZ 2 r < 1.
Proof.
  intros Hr [Hx0 Hx1].
  assert (Hp : 0 < powerRZ 2 r) by (apply powerRZ_lt; lra).
  apply IZR_le in Hx0. apply IZR_lt in Hx1. rewrite (IZR_pow2 r Hr) in Hx1.
  split.
  - apply Rmult_le_pos; [exact Hx0 | left; now apply Rinv_0_lt_compat].
  - apply (Rmult_lt_reg_r (powerRZ 2 r)); [exact Hp|].
    unfold Rdiv. rewrite Rmult_assoc, Rinv_l by lra. lra.
Qed.

Lemma fraction_lt (p a b : R) : 0 < p -> a < b -> a / p < b / p.
Proof.
  intros Hp Hab. apply Rmult_lt_compat_r; [now apply Rinv_0_lt_compat | exact Hab].
Qed.

Lemma mV_gains_ge_1 (gain : R) : In gain mV_gains -> 1 <= gain.
Proof.
  unfold mV_gains. cbn [In]. eval_dec.
  intros [<-|[<-|[<-|[<-|[<-|[]]]]]]; lra.
Qed.

(** A linear transfer function with the supply voltage 3, the offset 0.5
    and a gain of at least 1 keeps an in-range code within -1.5 and 1.5. *)
Lemma linear_tf_within_supply (gain : R) (r x : Z) :
  1 <= gain -> (0 <= r)%Z -> (0 <= x < 2 ^ r)%Z ->
  -1.5 <= linear_tf 3 (dec 5 1) gain r x < 1.5.
Proof.
  intros Hg Hr Hx. rewrite linear_tf_exact. eval_dec.
  destruct (code_fraction r x Hr Hx) as [Hq0 Hq1].
  set (q := IZR x / powerRZ 2 r) in *.
  replace (IZR x * 3 / powerRZ 2 r) with (3 * q) by (unfold q; field;
    apply Rgt_not_eq, powerRZ_lt; lra).
  set (u := 3 * q - 3 * (5 / 10)).
  assert (Hu : -1.5 <= u < 1.5) by (unfold u; lra).
  assert (Hig : 0 < / gain <= 1).
  { split; [apply Rinv_0_lt_compat; lra|].
    rewrite <- Rinv_1. apply Rinv_le_contravar; lra. }
  unfold Rdiv. destruct (Rle_lt_dec 0 u) as [Hu0 | Hu0]; split; nra.
Qed.

(** The device of an EMG or ECG conversion that returned. *)
Lemma mV_returned_device
      (sensor device : string) (raw : list Z) (r : Z) (out : list R) :
  sensor = "EMG"%string \/ sensor = "ECG"%string ->
  raw_to_phy sensor device raw (PyInt r) "mV" = Return (Some out) ->
  In device (plux_devices ++ bitalino_devices).
Proof.
  intros Hs Hout.
  assert (Hret : exists out : list R,
             raw_to_phy sensor device raw (PyInt r) "mV" = Return (Some out))
    by (now exists out).
  apply (raw_to_phy_returns_array_iff _ _ _ (PyInt r) r _ eq_refl) in Hret.
  destruct Hret as (_ & _ & Hdev).
  destruct Hs as [-> | ->]; exact Hdev.
Qed.

(** X8. For EMG and ECG, on every device and at every resolution, raw codes
    within [0, 2^r) convert to values within -1.5 mV (included) and 1.5 mV
    (excluded). *)
Theorem mV_within_supply
        (sensor device : string) (raw : list Z) (r : Z) (out : list R) :
  sensor = "EMG"%string \/ sensor = "ECG"%string ->
  (0 <= r)%Z ->
  Forall (fun x => (0 <= x < 2 ^ r)%Z) raw ->
  raw_to_phy sensor device raw (PyInt r) "mV" = Return (Some out) ->
  Forall (fun v => -1.5 <= v < 1.5) out.
Proof.
  intros Hs Hr Hraw Hout.
  assert (Hdev := mV_returned_device _ _ _ _ _ Hs Hout).
  destruct (mV_dispatch sensor device (PyInt r) r eq_refl Hs Hdev)
    as (gain & Hgain & Hmap).
  rewrite Hmap in Hout. injection Hout as <-.
  apply Forall_map. eapply Forall_impl; [|exact Hraw].
  intros x Hx. apply linear_tf_within_supply; [now apply mV_gains_ge_1 | exact Hr | exact Hx].
Qed.

Lemma mV_within_supply_witness :
  exists out : list R,
    raw_to_phy "ECG" "bitalino" [0; 512; 1023]%Z (PyInt 10) "mV"
    = Return (Some out) /\
    Forall (fun v => -1.5 <= v < 1.5) out.
Proof.
  destruct (mV_dispatch (F:=R) "ECG" "bitalino" (PyInt 10) 10 eq_refl
              (or_intror eq_refl) ltac:(simpl; tauto))
    as (gain & _ & Hmap).
  eexists. split; [exact (Hmap _)|].
  apply (mV_within_supply "ECG" "bitalino" [0; 512; 1023]%Z 10).
  - right; reflexivity.
  - lia.
  - repeat constructor; simpl; lia.
  - exact (Hmap _).
Defined.

(** X9. For EMG and ECG, on every supported device and at every resolution
    of at least one bit, the mid-scale code [2^(r-1)] converts to 0 mV. *)
Theorem mV_midscale_is_zero (sensor device : string) (r : Z) :
  sensor = "EMG"%string \/ sensor = "ECG"%string ->
  In device (plux_devices ++ bitalino_devices) ->
  (1 <= r)%Z ->
  raw_to_phy sensor device [2 ^ (r - 1)]%Z (PyInt r) "mV" = Return (Some [0]).
Proof.
  intros Hs Hdev Hr.
  destruct (mV_dispatch sensor device (PyInt r) r eq_refl Hs Hdev)
    as (gain & Hgain & Hmap).
  rewrite Hmap. cbn [map]. apply (f_equal (fun v => Return (Some [v]))).
  rewrite linear_tf_exact. eval_dec.
  assert (Hp : 0 < powerRZ 2 (r - 1)) by (apply powerRZ_lt; lra).
  rewrite IZR_pow2 by lia.
  replace (powerRZ 2 r) with (powerRZ 2 (r - 1) * 2).
  2: { replace r with (r - 1 + 1)%Z at 2 by lia.
       rewrite powerRZ_add by lra. f_equal. simpl. lra. }
  apply mV_gains_pos in Hgain.
  field. split; lra.
Qed.

Lemma mV_midscale_is_zero_witness :
  raw_to_phy (F:=R) "EMG" "swifter" [2 ^ (12 - 1)]%Z (PyInt 12) "mV"
  = Return (Some [0]).
Proof.
  apply (mV_midscale_is_zero "EMG" "swifter" 12).
  - left; reflexivity.
  - simpl; tauto.
  - lia.
Defined.

Lemma spo2_tf_exact (sf : R) (r x : Z) :
  spo2_tf sf r x = sf * (IZR x / powerRZ 2 r).
Proof. unfold spo2_tf. now rewrite pow2_exact. Qed.

Lemma bitalino_celsius_tf_exact (r x : Z) :
  bitalino_celsius_tf 3 r x = (IZR x / powerRZ 2 r * 3 - 0.5) * 100.
Proof.
  unfold bitalino_celsius_tf. rewrite pow2_exact. eval_dec.
  replace (5 / 10) with 0.5 by lra. reflexivity.
Qed.

(** The sensor and the device of an SpO2 conversion in uA that returned. *)
Lemma spo2_returned_device
      (sensor device : string) (raw : list Z) (r : Z) (out : list R) :
  In sensor spo2_sensors ->
  raw_to_phy sensor device raw (PyInt r) "uA" = Return (Some out) ->
  In device spo2_devices.
Proof.
  intros Hs Hout.
  assert (Hret : exists out : list R,
             raw_to_phy sensor device raw (PyInt r) "uA" = Return (Some out))
    by (now exists out).
  apply (raw_to_phy_returns_array_iff _ _ _ (PyInt r) r _ eq_refl) in Hret.
  destruct Hret as (_ & _ & Hdev).
  simpl in Hs. intuition (try subst sensor; try contradiction); exact Hdev.
Qed.

(** X10. For the three SpO2 sensors, raw codes within [0, 2^r) convert to a
    current from 0 uA up to, and not reaching, the scale factor of the
    site: 0.15 uA for the head, 1.2 uA for the arm and the finger. *)
Theorem spo2_uA_range
        (sensor device : string) (raw : list Z) (r : Z) (out : list R) :
  In sensor spo2_sensors ->
  (0 <= r)%Z ->
  Forall (fun x => (0 <= x < 2 ^ r)%Z) raw ->
  raw_to_phy sensor device raw (PyInt r) "uA" = Return (Some out) ->
  Forall (fun v => 0 <= v < (if (sensor =? "SpO2.HEAD")%string then 0.15 else 1.2))
         out.
Proof.
  intros Hs Hr Hraw Hout.
  assert (Hdev := spo2_returned_device _ _ _ _ _ Hs Hout).
  rewrite (spo2_uA sensor device raw (PyInt r) r eq_refl Hs Hdev) in Hout.
  injection Hout as <-.
  apply Forall_map. eapply Forall_impl; [|exact Hraw].
  intros x Hx. rewrite spo2_tf_exact.
  destruct (code_fraction r x Hr Hx) as [Hq0 Hq1].
  set (q := IZR x / powerRZ 2 r) in *.
  destruct (sensor =? "SpO2.HEAD")%string; eval_dec; split; nra.
Qed.

Lemma spo2_uA_range_witness :
  exists out : list R,
    raw_to_phy "SpO2.HEAD" "swifter" [0; 2048; 4095]%Z (PyInt 12) "uA"
    = Return (Some out) /\
    Forall (fun v => 0 <= v < 0.15) out.
Proof.
  assert (Hout := spo2_uA (F:=R) "SpO2.HEAD" "swifter" [0; 2048; 4095]%Z
                    (PyInt 12) 12 eq_refl
                    ltac:(simpl; tauto) ltac:(simpl; tauto)).
  eexists. split; [exact Hout|].
  apply (spo2_uA_range "SpO2.HEAD" "swifter" [0; 2048; 4095]%Z 12).
  - simpl; tauto.
  - lia.
  - repeat constructor; simpl; lia.
  - exact Hout.
Defined.

(** X11. The three SpO2 sites differ by the scale factor alone: the finger
    converts as the arm, and the head gives an eighth of the arm's current,
    sample by sample. *)
Theorem spo2_sites_related (device : string) (raw : list Z) (r : Z) (arm : list R) :
  raw_to_phy "SpO2.ARM" device raw (PyInt r) "uA" = Return (Some arm) ->
  raw_to_phy "SpO2.FING" device raw (PyInt r) "uA" = Return (Some arm) /\
  raw_to_phy "SpO2.HEAD" device raw (PyInt r) "uA"
  = Return (Some (map (fun v => v / 8) arm)).
Proof.
  intros Harm.
  assert (Hdev := spo2_returned_device "SpO2.ARM" _ _ _ _
                    ltac:(simpl; tauto) Harm).
  rewrite (spo2_uA "SpO2.ARM" device raw (PyInt r) r eq_refl
             ltac:(simpl; tauto) Hdev) in Harm.
  injection Harm as <-.
  split.
  - exact (spo2_uA "SpO2.FING" device raw (PyInt r) r eq_refl
             ltac:(simpl; tauto) Hdev).
  - rewrite (spo2_uA "SpO2.HEAD" device raw (PyInt r) r eq_refl
               ltac:(simpl; tauto) Hdev).
    apply (f_equal (fun l => Return (Some l))).
    rewrite map_map. apply map_ext. intros x.
    cbn [String.eqb Ascii.eqb Bool.eqb]. rewrite !spo2_tf_exact. eval_dec.
    lra.
Qed.

Lemma spo2_sites_related_witness :
  exists arm : list R,
    raw_to_phy "SpO2.ARM" "channeller" [100; 200]%Z (PyInt 16) "uA"
    = Return (Some arm) /\
    raw_to_phy "SpO2.HEAD" "channeller" [100; 200]%Z (PyInt 16) "uA"
    = Return (Some (map (fun v => v / 8) arm)).
Proof.
  assert (Harm := spo2_uA (F:=R) "SpO2.ARM" "channeller" [100; 200]%Z
                    (PyInt 16) 16 eq_refl
                    ltac:(simpl; tauto) ltac:(simpl; tauto)).
  eexists. split; [exact Harm|].
  exact (proj2 (spo2_sites_related "channeller" [100; 200]%Z 16 _ Harm)).
Defined.

(** X12. For BVP on a PLUX device, raw codes within [0, 2^r) convert to a
    current from 0 uA up to, and not reaching, 3 / 0.190060606 uA. *)
Theorem bvp_uA_range (device : string) (raw : list Z) (r : Z) (out : list R) :
  (0 <= r)%Z ->
  Forall (fun x => (0 <= x < 2 ^ r)%Z) raw ->
  raw_to_phy "BVP" device raw (PyInt r) "uA" = Return (Some out) ->
  Forall (fun v => 0 <= v < 3 / 0.190060606) out.
Proof.
  intros Hr Hraw Hout.
  assert (Hret : exists out : list R,
             raw_to_phy "BVP" device raw (PyInt r) "uA" = Return (Some out))
    by (now exists out).
  apply (raw_to_phy_returns_array_iff _ _ _ (PyInt r) r _ eq_refl) in Hret.
  destruct Hret as (_ & _ & Hdev).
  rewrite (bvp_uA device raw (PyInt r) r eq_refl Hdev) in Hout.
  injection Hout as <-.
  apply Forall_map. eapply Forall_impl; [|exact Hraw].
  intros x Hx. rewrite linear_tf_exact. eval_dec.
  destruct (code_fraction r x Hr Hx) as [Hq0 Hq1].
  set (q := IZR x / powerRZ 2 r) in *.
  replace (IZR x * 3 / powerRZ 2 r) with (3 * q) by (unfold q; field;
    apply Rgt_not_eq, powerRZ_lt; lra).
  split.
  - apply Rmult_le_pos; [lra | left; apply Rinv_0_lt_compat; lra].
  - apply fraction_lt; lra.
Qed.

Lemma bvp_uA_range_witness :
  exists out : list R,
    raw_to_phy "BVP" "bioplux" [0; 2048; 4095]%Z (PyInt 12) "uA"
    = Return (Some out) /\
    Forall (fun v => 0 <= v < 3 / 0.190060606) out.
Proof.
  assert (Hout := bvp_uA (F:=R) "bioplux" [0; 2048; 4095]%Z (PyInt 12) 12
                    eq_refl ltac:(simpl; tauto)).
  eexists. split; [exact Hout|].
  apply (bvp_uA_range "bioplux" [0; 2048; 4095]%Z 12).
  - lia.
  - repeat constructor; simpl; lia.
  - exact Hout.
Defined.

(** X13. For TEMP in Celsius on a BITalino device, the transfer function is
    the linear one of that family, not the thermistor chain: raw codes
    within [0, 2^r) convert to values from -50 up to, and not reaching,
    250, and the mid-scale code converts to 100. *)
Theorem bitalino_celsius_range
        (device : string) (raw : list Z) (r : Z) :
  In device bitalino_devices ->
  (1 <= r)%Z ->
  Forall (fun x => (0 <= x < 2 ^ r)%Z) raw ->
  (exists out : list R,
      raw_to_phy "TEMP" device raw (PyInt r) "C" = Return (Some out) /\
      Forall (fun v => -50 <= v < 250) out) /\
  raw_to_phy "TEMP" device [2 ^ (r - 1)]%Z (PyInt r) "C" = Return (Some [100]).
Proof.
  intros Hdev Hr Hraw. split.
  - eexists. split; [exact (temp_celsius_bitalino device raw (PyInt r) r eq_refl Hdev)|].
    apply Forall_map. eapply Forall_impl; [|exact Hraw].
    intros x Hx. rewrite bitalino_celsius_tf_exact.
    destruct (code_fraction r x ltac:(lia) Hx) as [Hq0 Hq1]. lra.
  - rewrite (temp_celsius_bitalino device _ (PyInt r) r eq_refl Hdev).
    cbn [map]. apply (f_equal (fun v => Return (Some [v]))).
    rewrite bitalino_celsius_tf_exact.
    assert (Hp : 0 < powerRZ 2 (r - 1)) by (apply powerRZ_lt; lra).
    rewrite IZR_pow2 by lia.
    replace (powerRZ 2 r) with (powerRZ 2 (r - 1) * 2).
    2: { replace r with (r - 1 + 1)%Z at 2 by lia.
         rewrite powerRZ_add by lra. f_equal. simpl. lra. }
    replace (powerRZ 2 (r - 1) / (powerRZ 2 (r - 1) * 2)) with (1 / 2)
      by (field; lra).
    lra.
Qed.

Lemma bitalino_celsius_range_witness :
  raw_to_phy (F:=R) "TEMP" "bitalino_riot" [2 ^ (10 - 1)]%Z (PyInt 10) "C"
  = Return (Some [100]).
Proof.
  apply (bitalino_celsius_range "bitalino_riot" [0; 512; 1023]%Z 10).
  - simpl; tauto.
  - lia.
  - repeat constructor; simpl; lia.
Defined.

(** X14. Apart from the thermistor chain of TEMP on the PLUX devices, every
    conversion that has a transfer function is strictly increasing in the
    raw code: mV and V of EMG and ECG, uA and A of BVP and of the SpO2
    sensors, and Celsius of TEMP on a BITalino device. *)
Theorem linear_units_strictly_increasing
        (sensor device opt : string) (r x y : Z) :
  In sensor supported_sensors ->
  In opt (supported_units sensor) ->
  In device (supported_devices sensor opt) ->
  (sensor = "TEMP"%string -> opt = "C"%string /\ In device bitalino_devices) ->
  (x < y)%Z ->
  exists vx vy : R,
    raw_to_phy sensor device [x] (PyInt r) opt = Return (Some [vx]) /\
    raw_to_phy sensor device [y] (PyInt r) opt = Return (Some [vy]) /\
    vx < vy.
Proof.
  intros Hs Hopt Hdev Htemp Hxy.
  assert (Hp : 0 < powerRZ 2 r) by (apply powerRZ_lt; lra).
  assert (Hq : IZR x / powerRZ 2 r < IZR y / powerRZ 2 r)
    by (apply fraction_lt; [exact Hp | now apply IZR_lt]).
  unfold raw_to_phy.
  simpl in Hs. intuition (try subst sensor; try contradiction);
    try (destruct Htemp as [-> Hbit]; [reflexivity|]; clear Hopt Hdev;
         simpl in Hbit);
    try (vm_compute in Hopt; intuition (try subst opt; try contradiction);
      cbv [supported_devices String.eqb Ascii.eqb Bool.eqb orb] in Hdev;
      simpl in Hdev);
    intuition (try subst device; try contradiction);
    step_raw_to_phy; eval_str_in; step_raw_to_phy; cbn [map];
    eexists _, _; (split; [reflexivity|]); (split; [reflexivity|]);
    unfold linear_tf, spo2_tf, bitalino_celsius_tf; rewrite pow2_exact;
    eval_dec; unfold Rdiv in *; lra.
Qed.

Lemma linear_units_strictly_increasing_witness :
  exists vx vy : R,
    raw_to_phy "BVP" "rachimeter" [100]%Z (PyInt 12) "A" = Return (Some [vx]) /\
    raw_to_phy "BVP" "rachimeter" [101]%Z (PyInt 12) "A" = Return (Some [vy]) /\
    vx < vy.
Proof.
  apply (linear_units_strictly_increasing "BVP" "rachimeter" "A" 12 100 101).
  - simpl; tauto.
  - vm_compute; tauto.
  - vm_compute; tauto.
  - discriminate.
  - lia.
Defined.

(** *** The thermistor chain *)

Lemma ohm_tf_increasing (r x y : Z) :
  (0 <= r)%Z -> (0 <= x < y)%Z -> (y < 2 ^ r)%Z ->
  0 <= ohm_tf (F:=R) r x < ohm_tf r y.
Proof.
  intros Hr [Hx Hxy] Hy. rewrite !ohm_tf_exact.
  apply IZR_le in Hx. apply IZR_lt in Hxy. apply IZR_lt in Hy.
  rewrite (IZR_pow2 r Hr) in Hy.
  set (P := powerRZ 2 r) in *. set (X := IZR x) in *. set (Y := IZR y) in *.
  assert (Ha : 0 < / (P - X)) by (apply Rinv_0_lt_compat; lra).
  assert (Hb : 0 < / (P - Y)) by (apply Rinv_0_lt_compat; lra).
  split.
  - apply Rmult_le_pos; [lra | lra].
  - apply Rlt_0_minus.
    replace (1e4 * Y / (P - Y) - 1e4 * X / (P - X))
      with (1e4 * (P * (Y - X)) * (/ (P - X) * / (P - Y))) by (field; lra).
    apply Rmult_lt_0_compat; [|now apply Rmult_lt_0_compat].
    apply Rmult_lt_0_compat; [lra|]. apply Rmult_lt_0_compat; lra.
Qed.

(** X15. For TEMP in Ohm on a PLUX device, the resistance is non-negative
    and strictly increasing in the raw code over [0, 2^r), and the
    mid-scale code converts to 10000 Ohm exactly. *)
Theorem temp_ohm_strictly_increasing (device : string) (r x y : Z) :
  In device plux_devices ->
  (1 <= r)%Z -> (0 <= x < y)%Z -> (y < 2 ^ r)%Z ->
  (exists vx vy : R,
      raw_to_phy "TEMP" device [x] (PyInt r) "Ohm" = Return (Some [vx]) /\
      raw_to_phy "TEMP" device [y] (PyInt r) "Ohm" = Return (Some [vy]) /\
      0 <= vx < vy) /\
  raw_to_phy "TEMP" device [2 ^ (r - 1)]%Z (PyInt r) "Ohm" = Return (Some [1e4]).
Proof.
  intros Hdev Hr Hx Hy. split.
  - exists (ohm_tf r x), (ohm_tf r y).
    split; [exact (temp_ohm device [x] (PyInt r) r eq_refl Hdev)|].
    split; [exact (temp_ohm device [y] (PyInt r) r eq_refl Hdev)|].
    apply ohm_tf_increasing; [lia | exact Hx | exact Hy].
  - rewrite (temp_ohm device _ (PyInt r) r eq_refl Hdev). cbn [map].
    apply (f_equal (fun v => Return (Some [v]))).
    rewrite ohm_tf_exact.
    assert (Hp : 0 < powerRZ 2 (r - 1)) by (apply powerRZ_lt; lra).
    rewrite IZR_pow2 by lia.
    replace (powerRZ 2 r) with (powerRZ 2 (r - 1) * 2).
    2: { replace r with (r - 1 + 1)%Z at 2 by lia.
         rewrite powerRZ_add by lra. f_equal. simpl. lra. }
    set (h := powerRZ 2 (r - 1)) in *.
    replace (h * 2 - h) with h by lra.
    unfold Rdiv. rewrite Rmult_assoc, Rinv_r by lra. lra.
Qed.

Lemma temp_ohm_strictly_increasing_witness :
  exists vx vy : R,
    raw_to_phy "TEMP" "bioplux" [1000]%Z (PyInt 12) "Ohm" = Return (Some [vx]) /\
    raw_to_phy "TEMP" "bioplux" [3000]%Z (PyInt 12) "Ohm" = Return (Some [vy]) /\
    0 <= vx < vy.
Proof.
  apply (temp_ohm_strictly_increasing "bioplux" 12 1000 3000).
  - simpl; tauto.
  - lia.
  - lia.
  - simpl; lia.
Defined.

Lemma cube_increasing (a b : R) : a < b -> a ^ 3 < b ^ 3.
Proof.
  intros Hab. apply Rlt_0_minus.
  replace (b ^ 3 - a ^ 3) with ((b - a) * (a * a + a * b + b * b)) by ring.
  apply Rmult_lt_0_compat; [lra|].
  destruct (Req_dec b 0) as [-> | Hb].
  - assert (0 < a * a) by (apply Rsqr_pos_lt; lra). lra.
  - assert (0 < b * b) by (now apply Rsqr_pos_lt).
    pose proof (Rle_0_sqr (a + b / 2)) as Hsq. unfold Rsqr in Hsq. lra.
Qed.

(** The denominator of the Kelvin formula, as a function of [ln R]. *)
Lemma kelvin_denominator_increasing (L1 L2 : R) :
  L1 < L2 ->
  1.12764514e-3 + 2.34282709e-4 * L1 + 8.77303013e-8 * L1 ^ 3
  < 1.12764514e-3 + 2.34282709e-4 * L2 + 8.77303013e-8 * L2 ^ 3.
Proof.
  intros HL. pose proof (cube_increasing L1 L2 HL). lra.
Qed.

Lemma inverse_positive (g : R) : 0 < 1 / g -> 0 < g.
Proof.
  intros Hg. destruct (Rtotal_order g 0) as [Hneg | [-> | Hpos]].
  - apply Rinv_lt_0_compat in Hneg. lra.
  - unfold Rdiv in Hg. rewrite Rinv_0 in Hg. lra.
  - exact Hpos.
Qed.

(** X16. For TEMP in Kelvin on a PLUX device, over the raw codes within
    (0, 2^r) and as long as the temperature is positive, a larger raw code
    converts to a strictly lower, still positive, temperature: the sensor
    reads as a thermistor with a negative temperature coefficient. *)
Theorem temp_kelvin_strictly_decreasing
        (device : string) (r x y : Z) (Kx : R) :
  In device plux_devices ->
  (0 <= r)%Z -> (0 < x < y)%Z -> (y < 2 ^ r)%Z ->
  raw_to_phy "TEMP" device [x] (PyInt r) "K" = Return (Some [Kx]) ->
  0 < Kx ->
  exists Ky : R,
    raw_to_phy "TEMP" device [y] (PyInt r) "K" = Return (Some [Ky]) /\
    0 < Ky < Kx.
Proof.
  intros Hdev Hr [Hx Hxy] Hy HKx Hpos.
  rewrite (temp_kelvin device [x] (PyInt r) r eq_refl Hdev) in HKx.
  cbn [map] in HKx.
  assert (HKx' : Kx = kelvin_tf (ohm_tf r x) (ohm_tf r x)) by congruence.
  rewrite kelvin_tf_exact in HKx'. subst Kx. clear HKx.
  exists (kelvin_tf (ohm_tf r y) (ohm_tf r y)).
  split; [exact (temp_kelvin device [y] (PyInt r) r eq_refl Hdev)|].
  rewrite kelvin_tf_exact.
  destruct (ohm_tf_increasing r x y Hr ltac:(lia) Hy) as [_ Hxy'].
  destruct (ohm_tf_increasing r 0 x Hr ltac:(lia) ltac:(lia)) as [H0 H0x].
  assert (HL : ln (ohm_tf r x) < ln (ohm_tf r y))
    by (apply ln_increasing; lra).
  apply kelvin_denominator_increasing in HL.
  apply inverse_positive in Hpos.
  set (gx := 1.12764514e-3 + 2.34282709e-4 * ln (ohm_tf r x)
             + 8.77303013e-8 * ln (ohm_tf r x) ^ 3) in *.
  set (gy := 1.12764514e-3 + 2.34282709e-4 * ln (ohm_tf r y)
             + 8.77303013e-8 * ln (ohm_tf r y) ^ 3) in *.
  unfold Rdiv. rewrite !Rmult_1_l. split.
  - apply Rinv_0_lt_compat. lra.
  - apply Rinv_lt_contravar; [apply Rmult_lt_0_compat; lra | exact HL].
Qed.

Lemma temp_kelvin_strictly_decreasing_witness :
  exists Kx Ky : R,
    raw_to_phy "TEMP" "bioplux" [2048]%Z (PyInt 12) "K" = Return (Some [Kx]) /\
    0 < Kx /\
    raw_to_phy "TEMP" "bioplux" [3000]%Z (PyInt 12) "K" = Return (Some [Ky]) /\
    0 < Ky < Kx.
Proof.
  assert (Hdev : In "bioplux"%string plux_devices) by (simpl; tauto).
  assert (HKx := temp_kelvin (F:=R) "bioplux" [2048]%Z (PyInt 12) 12 eq_refl Hdev).
  cbn [map] in HKx.
  assert (Hpos : 0 < kelvin_tf (F:=R) (ohm_tf 12 2048) (ohm_tf 12 2048)).
  { rewrite kelvin_tf_exact.
    assert (Hohm : 1 < ohm_tf (F:=R) 12 2048).
    { rewrite ohm_tf_exact. replace (powerRZ 2 12) with 4096 by (simpl; lra).
      lra. }
    assert (HL : 0 < ln (ohm_tf (F:=R) 12 2048)).
    { rewrite <- ln_1. apply ln_increasing; lra. }
    assert (HL3 : 0 < ln (ohm_tf (F:=R) 12 2048) ^ 3) by (apply pow_lt; exact HL).
    apply Rdiv_lt_0_compat; lra. }
  destruct (temp_kelvin_strictly_decreasing "bioplux" 12 2048 3000 _ Hdev
              ltac:(lia) ltac:(lia) ltac:(simpl; lia) HKx Hpos)
    as (Ky & HKy & Hlt).
  eexists _, Ky. split; [exact HKx|]. split; [exact Hpos|].
  split; [exact HKy | exact Hlt].
Defined.

(** *** Codes and resolution together *)

Lemma pow2_succ (r : Z) : pow2 (F:=R) (r + 1) = pow2 r * 2.
Proof.
  rewrite !pow2_exact, powerRZ_add by lra. f_equal. simpl. lra.
Qed.

Lemma pow2_minus_succ (r x : Z) :
  pow2_minus (F:=R) (r + 1) (2 * x) = 2 * pow2_minus r x.
Proof.
  rewrite !pow2_minus_exact, mult_IZR, powerRZ_add by lra.
  replace (powerRZ 2 1) with 2 by (simpl; lra). lra.
Qed.

Lemma linear_tf_double (vcc offset gain : R) (r x : Z) :
  linear_tf vcc offset gain (r + 1) (2 * x) = linear_tf vcc offset gain r x.
Proof.
  unfold linear_tf. rewrite pow2_succ. cbn [of_Z fdiv fmul fsub Exact].
  rewrite mult_IZR. unfold Rdiv. rewrite Rinv_mult. f_equal. f_equal.
  set (q := / pow2 r). lra.
Qed.

Lemma ohm_tf_double (r x : Z) : ohm_tf (F:=R) (r + 1) (2 * x) = ohm_tf r x.
Proof.
  unfold ohm_tf. rewrite pow2_minus_succ. cbn [of_Z fdiv fmul Exact].
  rewrite mult_IZR. unfold Rdiv. rewrite Rinv_mult.
  set (q := / pow2_minus r x). lra.
Qed.

Lemma bitalino_celsius_tf_double (vcc : R) (r x : Z) :
  bitalino_celsius_tf vcc (r + 1) (2 * x) = bitalino_celsius_tf vcc r x.
Proof.
  unfold bitalino_celsius_tf. rewrite pow2_succ.
  cbn [of_Z fdiv fmul fsub Exact].
  rewrite mult_IZR. unfold Rdiv. rewrite Rinv_mult. do 3 f_equal.
  set (q := / pow2 r). lra.
Qed.

Lemma spo2_tf_double (sf : R) (r x : Z) :
  spo2_tf sf (r + 1) (2 * x) = spo2_tf sf r x.
Proof.
  unfold spo2_tf. rewrite pow2_succ. cbn [of_Z fdiv fmul Exact].
  rewrite mult_IZR. unfold Rdiv. rewrite Rinv_mult. f_equal.
  set (q := / pow2 r). lra.
Qed.

(** X17. A conversion depends on the raw codes through [raw / 2^r] alone:
    doubling every raw code together with one more bit of resolution leaves
    the outcome of [raw_to_phy] unchanged, for every sensor, device and
    unit. *)
Theorem raw_to_phy_double_codes_one_more_bit
        (sensor device : string) (raw : list Z) (r : Z) (opt : string) :
  raw_to_phy (F:=R) sensor device (map (Z.mul 2) raw) (PyInt (r + 1)) opt
  = raw_to_phy sensor device raw (PyInt r) opt.
Proof.
  unfold raw_to_phy. step_raw_to_phy.
  repeat (split_dispatch; step_raw_to_phy); try reflexivity;
    apply (f_equal (fun l => Return (Some l)));
    rewrite ?map_combine_diag, ?map_map; apply map_ext; intros x;
    cbn [fst snd];
    rewrite ?ohm_tf_double, ?linear_tf_double, ?bitalino_celsius_tf_double,
      ?spo2_tf_double; reflexivity.
Qed.

End ExactRanges.


(** ** More on the time axis *)

Section TimeAxisShape.

Context {F : Type} {arith : Float64 F}.

(** X18. In every arithmetic, [generate_time] returns exactly when the
    sample rate is not zero (an empty signal with a zero rate fails too),
    and the axis it returns has one timestamp per sample: none for an empty
    signal. *)
Theorem generate_time_returns_iff {A : Type} (signal : list A) (sample_rate : Z) :
  ((exists ts : list F, generate_time signal sample_rate = Return ts)
   <-> sample_rate <> 0%Z) /\
  (forall ts : list F,
      generate_time signal sample_rate = Return ts ->
      List.length ts = List.length signal /\ (signal = [] -> ts = [])).
Proof.
  split; [split|].
  - intros [ts Hts] ->. rewrite generate_time_zero_rate in Hts. discriminate.
  - intros Hrate. eexists. now apply generate_time_nonzero_rate.
  - intros ts Hts.
    destruct (Z.eq_dec sample_rate 0) as [-> | Hrate].
    + rewrite generate_time_zero_rate in Hts. discriminate.
    + rewrite generate_time_nonzero_rate in Hts by exact Hrate.
      injection Hts as <-. split; [apply linspace_length|].
      intros ->. reflexivity.
Qed.

End TimeAxisShape.

Section TimeAxisSpacing.

Local Open Scope R_scope.

(** The [i]-th timestamp of a signal of at least two samples. *)
Lemma generate_time_nth {A : Type} (signal : list A) (sample_rate : Z) (i : nat) :
  let n := List.length signal in
  (2 <= n)%nat -> sample_rate <> 0%Z -> (i < n)%nat ->
  exists ts : list R,
    generate_time signal sample_rate = Return ts /\
    List.length ts = n /\
    nth i ts 0 = INR i * (INR n / IZR sample_rate / INR (n - 1)).
Proof.
  intros n Hn Hrate Hi.
  assert (Hgen := generate_time_exact signal sample_rate Hrate). fold n in Hgen.
  eexists. split; [exact Hgen|]. split; [apply linspace_length|].
  destruct n as [|[|m]]; [lia | lia |].
  rewrite linspace_nth by lia.
  replace (S (S m) - 1)%nat with (S m) by lia. reflexivity.
Qed.

(** X19. For a signal of [n >= 2] samples and a positive sample rate, the
    [i]-th timestamp is [i * n / ((n - 1) * sample_rate)]: it lies within
    0 and [n / sample_rate], and from the second timestamp on it is
    strictly later than [i / sample_rate], the instant the [i]-th sample
    was taken at. *)
Theorem generate_time_runs_ahead {A : Type}
        (signal : list A) (sample_rate : Z) (i : nat) :
  let n := List.length signal in
  (2 <= n)%nat -> (0 < sample_rate)%Z -> (i < n)%nat ->
  exists ts : list R,
    generate_time signal sample_rate = Return ts /\
    nth i ts 0 = INR i * INR n / (INR (n - 1) * IZR sample_rate) /\
    0 <= nth i ts 0 <= INR n / IZR sample_rate /\
    ((1 <= i)%nat -> INR i / IZR sample_rate < nth i ts 0).
Proof.
  intros n Hn Hrate Hi.
  destruct (generate_time_nth signal sample_rate i Hn ltac:(lia) Hi)
    as (ts & Hgen & _ & Hnth). fold n in Hnth.
  exists ts. split; [exact Hgen|]. rewrite Hnth.
  assert (Hr : 0 < IZR sample_rate) by now apply IZR_lt.
  assert (Hn1 : 1 <= INR (n - 1)).
  { change 1 with (INR 1). apply le_INR. lia. }
  assert (HnS : INR n = INR (n - 1) + 1).
  { rewrite <- S_INR. f_equal. lia. }
  assert (Hi0 : 0 <= INR i) by apply pos_INR.
  assert (Hin : INR i <= INR (n - 1)) by (apply le_INR; lia).
  set (k := INR (n - 1)) in *. set (a := INR i) in *. rewrite HnS.
  assert (Hir : 0 < / IZR sample_rate) by now apply Rinv_0_lt_compat.
  assert (Hik : 0 < / k) by (apply Rinv_0_lt_compat; lra).
  assert (Hq : a * ((k + 1) / IZR sample_rate / k)
               = a * (k + 1) / (k * IZR sample_rate)) by (field; lra).
  assert (Hq' : a * (k + 1) / (k * IZR sample_rate)
                = a / IZR sample_rate + a / k / IZR sample_rate)
    by (field; lra).
  assert (Hak : 0 <= a / k <= 1).
  { split.
    - apply Rmult_le_pos; lra.
    - apply (Rmult_le_reg_r k); [lra|].
      unfold Rdiv. rewrite Rmult_assoc, Rinv_l by lra. lra. }
  split; [exact Hq|]. rewrite Hq, Hq'.
  set (b := a / k) in *.
  assert (Hb : 0 <= b / IZR sample_rate <= 1 / IZR sample_rate).
  { unfold Rdiv. split; [apply Rmult_le_pos; lra|].
    apply Rmult_le_compat_r; lra. }
  assert (Ha : 0 <= a / IZR sample_rate <= k / IZR sample_rate).
  { unfold Rdiv. split; [apply Rmult_le_pos; lra|].
    apply Rmult_le_compat_r; lra. }
  split; [|].
  - replace ((k + 1) / IZR sample_rate)
      with (k / IZR sample_rate + 1 / IZR sample_rate) by (field; lra).
    lra.
  - intros Hi1.
    assert (Ha1 : 1 <= a) by (change 1 with (INR 1); apply le_INR; exact Hi1).
    assert (Hb0 : 0 < b) by (unfold b; apply Rmult_lt_0_compat; lra).
    assert (0 < b / IZR sample_rate) by (apply Rmult_lt_0_compat; lra).
    lra.
Qed.

Lemma generate_time_runs_ahead_witness :
  exists ts : list R,
    generate_time [10; 20; 30; 40]%Z 2 = Return ts /\
    INR 3 / IZR 2 < nth 3 ts 0.
Proof.
  destruct (generate_time_runs_ahead [10; 20; 30; 40]%Z 2 3
              ltac:(simpl; lia) eq_refl ltac:(simpl; lia))
    as (ts & Hgen & _ & _ & Hahead).
  exists ts. split; [exact Hgen | apply Hahead; lia].
Defined.

(** X20. For a signal of [n >= 2] samples and a negative sample rate, the
    time axis runs backwards: it starts at 0, strictly decreases, and ends
    at the negative [n / sample_rate]. *)
Theorem generate_time_negative_rate_decreasing {A : Type}
        (signal : list A) (sample_rate : Z) :
  let n := List.length signal in
  (2 <= n)%nat -> (sample_rate < 0)%Z ->
  exists ts : list R,
    generate_time signal sample_rate = Return ts /\
    List.length ts = n /\
    nth 0 ts 0 = 0 /\
    nth (n - 1) ts 0 = INR n / IZR sample_rate /\
    INR n / IZR sample_rate < 0 /\
    (forall i : nat, (S i < n)%nat -> nth (S i) ts 0 < nth i ts 0).
Proof.
  intros n Hn Hrate.
  assert (Hgen := generate_time_exact signal sample_rate ltac:(lia)).
  fold n in Hgen.
  assert (Hr : IZR sample_rate < 0) by now apply IZR_lt.
  assert (Hir : / IZR sample_rate < 0) by now apply Rinv_lt_0_compat.
  destruct n as [|[|m]] eqn:En; [lia | lia |].
  assert (Hm : 0 < INR (S m)) by (apply lt_0_INR; lia).
  assert (Him : 0 < / INR (S m)) by now apply Rinv_0_lt_compat.
  assert (Hn0 : 0 < INR (S (S m))) by (apply lt_0_INR; lia).
  assert (Hstop : INR (S (S m)) / IZR sample_rate < 0).
  { unfold Rdiv. rewrite <- (Rmult_0_r (INR (S (S m)))).
    apply Rmult_lt_compat_l; assumption. }
  set (stop := INR (S (S m)) / IZR sample_rate) in *.
  assert (Hstep : stop / INR (S m) < 0).
  { unfold Rdiv. rewrite <- (Rmult_0_l (/ INR (S m))).
    apply Rmult_lt_compat_r; assumption. }
  exists (linspace 0 stop (S (S m))).
  split; [exact Hgen|]. split; [apply linspace_length|].
  split; [rewrite linspace_nth by lia; cbn [INR]; lra|].
  split.
  - replace (S (S m) - 1)%nat with (S m) by lia.
    rewrite linspace_nth by lia. field. lra.
  - split; [exact Hstop|].
    intros i Hi. rewrite !linspace_nth by lia. rewrite S_INR. lra.
Qed.

Lemma generate_time_negative_rate_decreasing_witness :
  exists ts : list R,
    generate_time [10; 20; 30]%Z (-4) = Return ts /\
    List.length ts = 3%nat /\
    nth 0 ts 0 = 0.
Proof.
  destruct (generate_time_negative_rate_decreasing [10; 20; 30]%Z (-4)
              ltac:(simpl; lia) eq_refl)
    as (ts & Hgen & Hlen & Hfirst & _).
  exists ts. repeat split; assumption.
Defined.

End TimeAxisSpacing.


(** ** The respiration segments *)

Section SegmentsFacts.

Context {X Y C : Type}.

Variables (inhal_color exhal_color : C).
Variables (time : list X) (signal : list Y).
Variables (inhal_begin inhal_end exhal_begin exhal_end : list Z).

#[local] Abbreviation n := (List.length inhal_begin).
#[local] Abbreviation body :=
  (segments_body inhal_color exhal_color time signal
                 inhal_begin inhal_end exhal_begin exhal_end).
#[local] Abbreviation loop :=
  (segments_loop inhal_color exhal_color time signal
                 inhal_begin inhal_end exhal_begin exhal_end).
#[local] Abbreviation readable_at :=
  (readable inhal_begin inhal_end exhal_begin exhal_end).

Lemma nth_error_in_range {T : Type} (l : list T) (j : nat) :
  (j < List.length l)%nat -> exists v, nth_error l j = Some v.
Proof.
  intros Hj. destruct (nth_error l j) as [v|] eqn:E; [now exists v|].
  apply nth_error_None in E. lia.
Qed.

Lemma segments_body_drawn_iff (j : nat) (fig : list (line_call X Y C)) :
  (j < n)%nat ->
  (exists fig', body j fig = Drawn fig') <-> readable_at j.
Proof.
  intros Hj. unfold segments_body, readable.
  destruct (nth_error_in_range inhal_begin j Hj) as [ib ->].
  destruct (nth_error inhal_end j) as [ie|] eqn:Eie.
  2: { apply nth_error_None in Eie. split; [intros [? ?]; discriminate | lia]. }
  assert (Hie : (j < List.length inhal_end)%nat)
    by (apply nth_error_Some; congruence).
  destruct (nth_error exhal_begin j) as [eb|] eqn:Eeb.
  2: { apply nth_error_None in Eeb.
       destruct (negb (j =? n - 1)%nat);
         (split; [intros [? ?]; discriminate | lia]). }
  assert (Heb : (j < List.length exhal_begin)%nat)
    by (apply nth_error_Some; congruence).
  destruct (Nat.eqb_spec j (n - 1)) as [Hlast | Hlast]; cbn [negb].
  - split; [intros _; repeat split; [assumption .. | tauto] | eauto].
  - destruct (nth_error exhal_end j) as [ee|] eqn:Eee.
    + assert (j < List.length exhal_end)%nat
        by (apply nth_error_Some; congruence).
      split; [tauto|]. intros _. destruct (j =? 0)%nat; eauto.
    + apply nth_error_None in Eee.
      split; [intros [? ?]; discriminate | intros (_ & _ & H); specialize (H Hlast); lia].
Qed.

Lemma segments_loop_drawn_iff (k i : nat) (fig : list (line_call X Y C)) :
  (i + k <= n)%nat ->
  (exists fig', loop (seq i k) fig = Drawn fig')
  <-> (forall j, (i <= j < i + k)%nat -> readable_at j).
Proof.
  revert i fig. induction k as [|k IH]; intros i fig Hik.
  - cbn [seq segments_loop]. split; [intros _ j Hj; lia | eauto].
  - cbn [seq segments_loop]. split.
    + intros [fig' Hfig'] j Hj.
      destruct (body i fig) as [fig1|fig1] eqn:Ebody; [|discriminate].
      destruct (Nat.eq_dec j i) as [-> | Hne].
      * apply (segments_body_drawn_iff i fig); [lia | eauto].
      * apply (proj1 (IH (S i) fig1 ltac:(lia))); [eauto | lia].
    + intros Hall.
      destruct (proj2 (segments_body_drawn_iff i fig ltac:(lia))
                      (Hall i ltac:(lia))) as [fig1 ->].
      apply (IH (S i) fig1 ltac:(lia)). intros j Hj. apply Hall. lia.
Qed.

(** X21. [_inhal_exhal_segments] runs through without an [IndexError]
    exactly when [inhal_end] and [exhal_begin] have at least as many
    entries as [inhal_begin], and [exhal_end] at least as many but one. *)
Theorem segments_drawn_iff (fig : list (line_call X Y C)) :
  (exists fig',
      _inhal_exhal_segments inhal_color exhal_color time signal
        inhal_begin inhal_end exhal_begin exhal_end fig = Drawn fig')
  <->
  (n <= List.length inhal_end /\ n <= List.length exhal_begin /\
   n - 1 <= List.length exhal_end)%nat.
Proof.
  unfold _inhal_exhal_segments.
  rewrite (segments_loop_drawn_iff n 0 fig) by lia.
  unfold readable. split.
  - intros Hall. destruct n as [|m] eqn:En; [lia|].
    destruct (Hall m ltac:(lia)) as (H1 & H2 & _).
    repeat split; try lia.
    destruct m as [|m']; [lia|].
    destruct (Hall m' ltac:(lia)) as (_ & _ & H3). lia.
  - intros (H1 & H2 & H3) j Hj. repeat split; lia.
Qed.

(** *** Legends and number of lines *)

Lemma segments_body_legends (j : nat) (fig fig' : list (line_call X Y C)) :
  (1 <= j)%nat ->
  body j fig = Drawn fig' ->
  map legend fig' = map legend fig ++ [None; None].
Proof.
  intros Hj. unfold segments_body.
  replace (j =? 0)%nat with false by (symmetry; apply Nat.eqb_neq; lia).
  destruct (nth_error inhal_begin j); [|discriminate].
  destruct (nth_error inhal_end j); [|discriminate].
  destruct (negb (j =? n - 1)%nat).
  - destruct (nth_error exhal_begin j); [|discriminate].
    destruct (nth_error exhal_end j); [|discriminate].
    intros [= <-]. rewrite !map_app, <- app_assoc. reflexivity.
  - destruct (nth_error exhal_begin j); [|discriminate].
    intros [= <-]. rewrite !map_app, <- app_assoc. reflexivity.
Qed.

Lemma segments_loop_legends (k i : nat) (fig fig' : list (line_call X Y C)) :
  (1 <= i)%nat ->
  loop (seq i k) fig = Drawn fig' ->
  map legend fig' = map legend fig ++ repeat None (2 * k).
Proof.
  revert i fig. induction k as [|k IH]; intros i fig Hi; cbn [seq segments_loop].
  - intros [= <-]. cbn [Nat.mul repeat]. now rewrite app_nil_r.
  - destruct (body i fig) as [fig1|] eqn:Ebody; [|discriminate].
    intros Hloop. rewrite (IH (S i) fig1 ltac:(lia) Hloop).
    rewrite (segments_body_legends i fig fig1 Hi Ebody), <- app_assoc.
    f_equal. replace (2 * S k)%nat with (S (S (2 * k))) by lia. reflexivity.
Qed.

(** X22. When [_inhal_exhal_segments] runs through on an empty figure, it
    has drawn two lines for a single cycle and [2 n + 1] lines for [n >= 2]
    cycles, and the lines of the first cycle alone carry a legend:
    "Respiration Suspension" on the first, "Normal Breath" on the one or
    two that follow. *)
Theorem segments_legends (fig' : list (line_call X Y C)) :
  _inhal_exhal_segments inhal_color exhal_color time signal
    inhal_begin inhal_end exhal_begin exhal_end [] = Drawn fig' ->
  map legend fig'
  = match n with
    | O => []
    | 1%nat => [Some "Respiration Suspension"; Some "Normal Breath"]%string
    | S (S m) =>
        [Some "Respiration Suspension"; Some "Normal Breath";
         Some "Normal Breath"]%string ++ repeat None (2 * S m)
    end
  /\
  List.length fig' = match n with
                     | O => 0
                     | 1 => 2
                     | S (S m) => 2 * n + 1
                     end%nat.
Proof.
  intros Hdrawn.
  assert (Hleg : map legend fig'
    = match n with
      | O => []
      | 1%nat => [Some "Respiration Suspension"; Some "Normal Breath"]%string
      | S (S m) =>
          [Some "Respiration Suspension"; Some "Normal Breath";
           Some "Normal Breath"]%string ++ repeat None (2 * S m)
      end).
  { unfold _inhal_exhal_segments in Hdrawn.
    destruct n as [|[|m]] eqn:En; cbn [seq segments_loop] in Hdrawn.
    - now injection Hdrawn as <-.
    - unfold segments_body in Hdrawn. rewrite En in Hdrawn.
      cbn [Nat.eqb Nat.sub negb fst snd] in Hdrawn.
      destruct (nth_error inhal_begin 0); [|discriminate].
      destruct (nth_error inhal_end 0); [|discriminate].
      destruct (nth_error exhal_begin 0); [|discriminate].
      now injection Hdrawn as <-.
    - destruct (body 0 []) as [fig1|] eqn:Ebody; [|discriminate].
      rewrite (segments_loop_legends (S m) 1 fig1 fig' ltac:(lia) Hdrawn).
      f_equal. unfold segments_body in Ebody. rewrite En in Ebody.
      cbn [Nat.eqb Nat.sub negb fst snd] in Ebody.
      destruct (nth_error inhal_begin 0); [|discriminate].
      destruct (nth_error inhal_end 0); [|discriminate].
      destruct (nth_error exhal_begin 0); [|discriminate].
      destruct (nth_error exhal_end 0); [|discriminate].
      now injection Ebody as <-. }
  split; [exact Hleg|].
  rewrite <- (length_map legend), Hleg.
  destruct n as [|[|m]]; [reflexivity | reflexivity |].
  rewrite length_app, repeat_length. cbn [List.length]. lia.
Qed.

End SegmentsFacts.


(** ** What the segments cover *)

Section SegmentsCover.

Context {X Y C : Type}.

Variables (inhal_color exhal_color : C).
Variables (time : list X) (signal : list Y).

(** The arguments as [plot_resp_diff] passes them: the exhalations begin
    where the inhalations end, and end where the next inhalations begin. *)
Variables (begins ends : list Z).

#[local] Abbreviation body :=
  (segments_body inhal_color exhal_color time signal
                 begins ends ends (tl begins)).
#[local] Abbreviation loop :=
  (segments_loop inhal_color exhal_color time signal
                 begins ends ends (tl begins)).

Lemma py_slice_bound_mono (len : nat) (a b : Z) :
  (0 <= a <= b)%Z -> (py_slice_bound len a <= py_slice_bound len b)%nat.
Proof.
  intros [Ha Hab]. unfold py_slice_bound.
  destruct (Z.ltb_spec a 0); [lia|]. destruct (Z.ltb_spec b 0); [lia|].
  apply Z2Nat.inj_le; lia.
Qed.

Lemma firstn_skipn_between {T : Type} (l : list T) (lo hi : nat) :
  (lo <= hi)%nat ->
  firstn (hi - lo) (skipn lo l) ++ skipn hi l = skipn lo l.
Proof.
  intros Hle. rewrite <- (firstn_skipn (hi - lo) (skipn lo l)) at 2.
  f_equal. rewrite skipn_skipn. f_equal. lia.
Qed.

Lemma py_slice_between {T : Type} (l : list T) (a b : Z) :
  py_slice l (Some a) (Some b)
  = firstn (py_slice_bound (List.length l) b - py_slice_bound (List.length l) a)
           (skipn (py_slice_bound (List.length l) a) l).
Proof. reflexivity. Qed.

Lemma py_slice_to {T : Type} (l : list T) (b : Z) :
  py_slice l None (Some b) = firstn (py_slice_bound (List.length l) b) l.
Proof. unfold py_slice. now rewrite Nat.sub_0_r. Qed.

Lemma py_slice_from {T : Type} (l : list T) (a : Z) :
  py_slice l (Some a) None = skipn (py_slice_bound (List.length l) a) l.
Proof.
  unfold py_slice. apply firstn_all2. rewrite length_skipn. lia.
Qed.

Lemma nth_error_tl {T : Type} (l : list T) (i : nat) :
  nth_error (tl l) i = nth_error l (S i).
Proof. destruct l; [now destruct i | reflexivity]. Qed.

Section Column.

(** One of the two data columns of the lines, with the list it is sliced
    from. *)
Variables (T : Type) (col : line_call X Y C -> list T) (data : list T).
Hypothesis col_segment :
  forall a b color lg,
    col (segment time signal a b color lg) = py_slice data a b.

#[local] Abbreviation at_ i := (py_slice_bound (List.length data) i).

(** From the second cycle on, the cycles that are left draw the signal
    from the beginning of the first of them to its end, in order. *)
Lemma segments_loop_cover (k i : nat) (b : Z) (fig fig' : list (line_call X Y C)) :
  alternating begins ends ->
  (1 <= i)%nat -> (i + S k = List.length begins)%nat ->
  nth_error begins i = Some b ->
  loop (seq i (S k)) fig = Drawn fig' ->
  List.concat (map col fig') = List.concat (map col fig) ++ skipn (at_ b) data.
Proof.
  intros [Hlen Halt]. revert i b fig.
  induction k as [|k IH]; intros i b fig Hi Hik Hb; cbn [seq segments_loop].
  - unfold segments_body. rewrite Hb.
    replace (i =? 0)%nat with false by (symmetry; apply Nat.eqb_neq; lia).
    replace (i =? List.length begins - 1)%nat with true
      by (symmetry; apply Nat.eqb_eq; lia).
    destruct (nth_error ends i) as [e|] eqn:He; [|discriminate].
    cbn [negb fst snd]. intros [= <-].
    destruct (Halt i b e Hb He) as [Hbe _].
    rewrite !map_app, !concat_app. cbn [map List.concat].
    rewrite !col_segment, !app_nil_r, <- app_assoc. f_equal.
    rewrite py_slice_between, py_slice_from.
    apply firstn_skipn_between. now apply py_slice_bound_mono.
  - unfold segments_body at 1. rewrite Hb.
    replace (i =? 0)%nat with false by (symmetry; apply Nat.eqb_neq; lia).
    replace (i =? List.length begins - 1)%nat with false
      by (symmetry; apply Nat.eqb_neq; lia).
    destruct (nth_error ends i) as [e|] eqn:He; [|discriminate].
    cbn [negb fst snd]. rewrite nth_error_tl.
    destruct (nth_error begins (S i)) as [b'|] eqn:Hb'; [|discriminate].
    intros Hloop.
    destruct (Halt i b e Hb He) as [Hbe Hnext]. specialize (Hnext b' Hb').
    rewrite (IH (S i) b' _ ltac:(lia) ltac:(lia) Hb' Hloop).
    rewrite !map_app, !concat_app. cbn [map List.concat].
    rewrite !col_segment, !app_nil_r, <- !app_assoc. f_equal.
    rewrite !py_slice_between.
    rewrite (firstn_skipn_between data (at_ e) (at_ b'))
      by (apply py_slice_bound_mono; lia).
    apply firstn_skipn_between. now apply py_slice_bound_mono.
Qed.

(** With two cycles or more, the lines drawn on an empty figure hold every
    sample of the column once. *)
Lemma segments_cover_column (fig' : list (line_call X Y C)) :
  alternating begins ends ->
  (2 <= List.length begins)%nat ->
  _inhal_exhal_segments inhal_color exhal_color time signal
    begins ends ends (tl begins) [] = Drawn fig' ->
  Permutation (List.concat (map col fig')) data.
Proof.
  intros Halt Hn. unfold _inhal_exhal_segments.
  destruct (List.length begins) as [|[|m]] eqn:En; [lia | lia |].
  cbn [seq segments_loop]. unfold segments_body at 1. rewrite En.
  cbn [Nat.eqb Nat.sub negb fst snd]. rewrite nth_error_tl.
  destruct (nth_error begins 0) as [b0|] eqn:Hb0; [|discriminate].
  destruct (nth_error ends 0) as [e0|] eqn:He0; [|discriminate].
  destruct (nth_error begins 1) as [b1|] eqn:Hb1; [|discriminate].
  intros Hloop.
  destruct (proj2 Halt 0%nat b0 e0 Hb0 He0) as [Hbe Hnext].
  specialize (Hnext b1 Hb1).
  rewrite (segments_loop_cover m 1 b1 _ fig' Halt ltac:(lia) ltac:(lia) Hb1 Hloop).
  cbn [app map List.concat]. rewrite !col_segment, app_nil_r.
  rewrite !py_slice_between, py_slice_to.
  set (A := firstn (at_ e0 - at_ b0) (skipn (at_ b0) data)).
  set (B := firstn (at_ b1 - at_ e0) (skipn (at_ e0) data)).
  set (P := firstn (at_ b0) data). set (R := skipn (at_ b1) data).
  assert (Hdata : P ++ A ++ B ++ R = data).
  { unfold A, B, P, R.
    rewrite (firstn_skipn_between data (at_ e0) (at_ b1))
      by (apply py_slice_bound_mono; lia).
    rewrite (firstn_skipn_between data (at_ b0) (at_ e0))
      by (now apply py_slice_bound_mono).
    apply firstn_skipn. }
  apply (Permutation_trans (l' := P ++ A ++ B ++ R));
    [|rewrite Hdata; apply Permutation_refl].
  rewrite !app_assoc. apply Permutation_app_tail.
  rewrite <- (app_assoc P A B). apply Permutation_app_comm.
Qed.

End Column.

Lemma alternating_drawn :
  alternating begins ends ->
  exists fig',
    _inhal_exhal_segments inhal_color exhal_color time signal
      begins ends ends (tl begins) [] = Drawn fig'.
Proof.
  intros [Hlen _]. apply segments_drawn_iff.
  rewrite Hlen. repeat split; try lia.
  destruct begins; cbn [tl List.length]; lia.
Qed.

(** X23. With the indices of two or more cycles, alternating along the
    signal and passed as [plot_resp_diff] passes them,
    [_inhal_exhal_segments] runs through, and the lines it draws on an empty
    figure hold every sample of the time axis and of the signal exactly
    once. *)
Theorem segments_cover_signal :
  alternating begins ends ->
  (2 <= List.length begins)%nat ->
  exists fig',
    _inhal_exhal_segments inhal_color exhal_color time signal
      begins ends ends (tl begins) [] = Drawn fig' /\
    Permutation (List.concat (map line_x fig')) time /\
    Permutation (List.concat (map line_y fig')) signal.
Proof.
  intros Halt Hn. destruct (alternating_drawn Halt) as [fig' Hfig'].
  exists fig'. split; [exact Hfig'|]. split.
  - apply (segments_cover_column X line_x time); auto.
  - apply (segments_cover_column Y line_y signal); auto.
Qed.

(** X24. With the indices of a single cycle, the samples before the
    beginning of the inhalation are on no line: the two lines drawn on an
    empty figure hold the time axis and the signal from that index on. *)
Theorem segments_single_cycle_skips_prefix (b : Z) :
  alternating begins ends ->
  begins = [b] ->
  exists fig',
    _inhal_exhal_segments inhal_color exhal_color time signal
      begins ends ends (tl begins) [] = Drawn fig' /\
    List.concat (map line_x fig')
    = skipn (py_slice_bound (List.length time) b) time /\
    List.concat (map line_y fig')
    = skipn (py_slice_bound (List.length signal) b) signal.
Proof.
  intros Halt Hb. destruct (alternating_drawn Halt) as [fig' Hfig'].
  exists fig'. split; [exact Hfig'|].
  destruct Halt as [Hlen Halt]. revert Hfig'.
  unfold _inhal_exhal_segments. rewrite Hb in *.
  cbn [List.length seq segments_loop]. unfold segments_body.
  cbn [List.length Nat.eqb Nat.sub negb fst snd].
  change (nth_error [b] 0) with (Some b).
  destruct (nth_error ends 0) as [e|] eqn:He; [|discriminate].
  intros [= <-]. destruct (Halt 0%nat b e eq_refl He) as [Hbe _].
  cbn [app map List.concat line_x line_y segment]. rewrite !app_nil_r.
  rewrite !py_slice_between, !py_slice_from.
  split; apply firstn_skipn_between; now apply py_slice_bound_mono.
Qed.

End SegmentsCover.

Section SegmentsRuns.

Lemma alternating_example : alternating [2; 6]%Z [4; 8]%Z.
Proof.
  split; [reflexivity|].
  intros [|[|i]] b e Hb He; cbn [nth_error] in Hb, He.
  - injection Hb as <-. injection He as <-. split; [lia|].
    intros b' [= <-]. lia.
  - injection Hb as <-. injection He as <-. split; [lia|].
    intros b' Hb'. discriminate.
  - destruct i; discriminate.
Qed.

Lemma segments_cover_signal_witness :
  exists fig',
    _inhal_exhal_segments "red"%string "blue"%string
      [0; 1; 2; 3; 4; 5; 6; 7; 8; 9]%Z [10; 11; 12; 13; 14; 15; 16; 17; 18; 19]%Z
      [2; 6]%Z [4; 8]%Z [4; 8]%Z (tl [2; 6]%Z) [] = Drawn fig' /\
    Permutation (List.concat (map line_x fig')) [0; 1; 2; 3; 4; 5; 6; 7; 8; 9]%Z.
Proof.
  destruct (segments_cover_signal "red"%string "blue"%string
              [0; 1; 2; 3; 4; 5; 6; 7; 8; 9]%Z
              [10; 11; 12; 13; 14; 15; 16; 17; 18; 19]%Z
              [2; 6]%Z [4; 8]%Z alternating_example ltac:(simpl; lia))
    as (fig' & Hfig' & Hx & _).
  exists fig'. split; assumption.
Defined.

Lemma alternating_single : alternating [3]%Z [5]%Z.
Proof.
  split; [reflexivity|].
  intros [|i] b e Hb He; cbn [nth_error] in Hb, He.
  - injection Hb as <-. injection He as <-. split; [lia|].
    intros b' Hb'. discriminate.
  - destruct i; discriminate.
Qed.

Lemma segments_single_cycle_skips_prefix_witness :
  exists fig',
    _inhal_exhal_segments "red"%string "blue"%string
      [0; 1; 2; 3; 4; 5; 6; 7]%Z [10; 11; 12; 13; 14; 15; 16; 17]%Z
      [3]%Z [5]%Z [5]%Z (tl [3]%Z) [] = Drawn fig' /\
    List.concat (map line_x fig') = [3; 4; 5; 6; 7]%Z.
Proof.
  destruct (segments_single_cycle_skips_prefix "red"%string "blue"%string
              [0; 1; 2; 3; 4; 5; 6; 7]%Z [10; 11; 12; 13; 14; 15; 16; 17]%Z
              [3]%Z [5]%Z 3 alternating_single eq_refl)
    as (fig' & Hfig' & Hx & _).
  exists fig'. split; [exact Hfig' | exact Hx].
Defined.

Lemma segments_drawn_iff_witness :
  exists fig',
    _inhal_exhal_segments "red"%string "blue"%string
      [0; 1; 2; 3; 4; 5; 6; 7]%Z [10; 11; 12; 13; 14; 15; 16; 17]%Z
      [1; 5]%Z [3; 7]%Z [3; 7]%Z [5]%Z [] = Drawn fig'.
Proof.
  apply (proj2 (segments_drawn_iff "red"%string "blue"%string
                  [0; 1; 2; 3; 4; 5; 6; 7]%Z [10; 11; 12; 13; 14; 15; 16; 17]%Z
                  [1; 5]%Z [3; 7]%Z [3; 7]%Z [5]%Z [])).
  cbn [List.length]. lia.
Defined.

(** A run: two cycles over ten samples. *)
Example segments_run :
  let time := [0; 1; 2; 3; 4; 5; 6; 7; 8; 9]%Z in
  let signal := [10; 11; 12; 13; 14; 15; 16; 17; 18; 19]%Z in
  _inhal_exhal_segments "red"%string "blue"%string time signal
    [2; 6]%Z [4; 8]%Z [4; 8]%Z [6]%Z []
  = Drawn
      [segment time signal (Some 2%Z) (Some 4%Z) "red"%string
               (Some "Respiration Suspension"%string);
       segment time signal (Some 4%Z) (Some 6%Z) "blue"%string
               (Some "Normal Breath"%string);
       segment time signal None (Some 2%Z) "blue"%string
               (Some "Normal Breath"%string);
       segment time signal (Some 6%Z) (Some 8%Z) "red"%string None;
       segment time signal (Some 8%Z) None "blue"%string None].
Proof. reflexivity. Qed.

(** A run that ends in the middle of an inhalation: [inhal_end] is one
    entry short, and the index error comes after the lines of the first
    cycle are drawn. *)
Example segments_run_index_error :
  let time := [0; 1; 2; 3; 4; 5; 6; 7; 8; 9]%Z in
  let signal := [10; 11; 12; 13; 14; 15; 16; 17; 18; 19]%Z in
  _inhal_exhal_segments "red"%string "blue"%string time signal
    [2; 6]%Z [4]%Z [4]%Z [6]%Z []
  = IndexError
      [segment time signal (Some 2%Z) (Some 4%Z) "red"%string
               (Some "Respiration Suspension"%string);
       segment time signal (Some 4%Z) (Some 6%Z) "blue"%string
               (Some "Normal Breath"%string);
       segment time signal None (Some 2%Z) "blue"%string
               (Some "Normal Breath"%string)].
Proof. reflexivity. Qed.

Lemma segments_legends_witness :
  exists fig' : list (line_call Z Z string),
    _inhal_exhal_segments "red"%string "blue"%string
      [0; 1; 2; 3; 4; 5; 6; 7; 8; 9]%Z [10; 11; 12; 13; 14; 15; 16; 17; 18; 19]%Z
      [2; 6]%Z [4; 8]%Z [4; 8]%Z [6]%Z [] = Drawn fig' /\
    List.length fig' = 5%nat.
Proof.
  eexists. split; [reflexivity|].
  exact (proj2 (segments_legends "red"%string "blue"%string
                  [0; 1; 2; 3; 4; 5; 6; 7; 8; 9]%Z
                  [10; 11; 12; 13; 14; 15; 16; 17; 18; 19]%Z
                  [2; 6]%Z [4; 8]%Z [4; 8]%Z [6]%Z _ eq_refl)).
Defined.

End SegmentsRuns.


(** ** The dispatch at concrete calls *)

Section DispatchRuns.

Lemma raw_to_phy_length_witness :
  exists out : list R,
    raw_to_phy "EMG" "bitalino" [1; 2; 3]%Z (PyInt 10) "V" = Return (Some out) /\
    List.length out = 3%nat.
Proof.
  eexists. split; [reflexivity|].
  exact (raw_to_phy_length (F:=R) "EMG" "bitalino" [1; 2; 3]%Z (PyInt 10) "V"
           _ eq_refl).
Defined.

Lemma raw_to_phy_app_witness :
  exists out1 out2 : list R,
    raw_to_phy "BVP" "swifter" [1; 2]%Z (PyInt 12) "uA" = Return (Some out1) /\
    raw_to_phy "BVP" "swifter" [3]%Z (PyInt 12) "uA" = Return (Some out2) /\
    raw_to_phy "BVP" "swifter" ([1; 2] ++ [3])%Z (PyInt 12) "uA"
    = Return (Some (out1 ++ out2)).
Proof.
  eexists _, _. split; [reflexivity|]. split; [reflexivity|].
  exact (raw_to_phy_app (F:=R) "BVP" "swifter" [1; 2]%Z [3]%Z (PyInt 12) "uA"
           _ _ eq_refl eq_refl).
Defined.

Lemma raw_to_phy_failure_ignores_samples_witness :
  raw_to_phy (F:=R) "TEMP" "bitalino" [7; 8; 9]%Z (PyInt 10) "K"
  = raw_to_phy "TEMP" "bitalino" [1]%Z (PyInt 10) "K".
Proof.
  apply (raw_to_phy_failure_ignores_samples (F:=R)).
  intros out. discriminate.
Defined.

Lemma unsupported_sensor_rejected_witness :
  raw_to_phy (F:=R) "ecg" "bioplux" [0; 2048; 4095]%Z (PyInt 12) "mV"
  = Raise UnsupportedSensor.
Proof.
  apply (unsupported_sensor_rejected (F:=R) _ _ _ _ 12); [reflexivity|].
  simpl. intros H. repeat (destruct H as [H | H]; [discriminate H|]). exact H.
Defined.

Lemma unsupported_device_rejected_witness :
  raw_to_phy (F:=R) "TEMP" "bitalino" [0; 512; 1023]%Z (PyInt 10) "K"
  = Raise UnsupportedDeviceForUnit.
Proof.
  apply (unsupported_device_rejected (F:=R) _ _ _ _ 10).
  - reflexivity.
  - simpl; tauto.
  - vm_compute; tauto.
  - vm_compute. intros H.
    repeat (destruct H as [H | H]; [discriminate H|]). exact H.
Defined.

Lemma raw_to_phy_returns_array_iff_witness :
  exists out : list R,
    raw_to_phy "SpO2.FING" "biosignalsplux" [0; 2048; 4095]%Z (PyInt 12) "A"
    = Return (Some out).
Proof.
  apply (proj2 (raw_to_phy_returns_array_iff (F:=R) "SpO2.FING" "biosignalsplux"
                  [0; 2048; 4095]%Z (PyInt 12) 12 "A" eq_refl)).
  split; [simpl; tauto|]. split; vm_compute; tauto.
Defined.

End DispatchRuns.
